(** * Honeywell Galaxy 7 keypad driver: protocol state machine

    Shallow embedding of
    [components/honeywell_galaxy7_keypad/honeywell_galaxy7_keypad.{h,cpp}].

    - [uint8_t] and [uint32_t] values are integers in [Z]; every operation
      that can leave the range is followed by its wrap-around ([wrap8],
      [wrap32]).
    - [std::vector<uint8_t>] is [list Z], [std::string] is [string].
    - The object's members are the record [St]; member functions are
      computations in the monad [M], which threads [St] and the environment
      [Env] (millisecond clock, UART receive FIFO, and the ordered trace of
      calls that leave the component). *)

From Stdlib Require Import ZArith List Bool String Ascii Lia.
Import ListNotations.
Open Scope Z_scope.

(** ** Machine integers *)

Definition wrap8 (z : Z) : Z := z mod 256.
Definition wrap32 (z : Z) : Z := z mod 4294967296.

(** [a + b] and [a - b] on [uint32_t]. *)
Definition add32 (a b : Z) : Z := wrap32 (a + b).
Definition sub32 (a b : Z) : Z := wrap32 (a - b).

(** ** Constants of the translation unit *)

Definition KEYPAD_ADDR : Z := 0x11.
Definition INIT_POLL_SECOND_MS : Z := 5000.
Definition INIT_POLL_INTERVAL_MS : Z := 5000.
Definition SCREEN_PUSH_INTERVAL_MS : Z := 25000.
Definition ACTIVITY_POLL_INTERVAL_MS : Z := 150.
Definition REPLY_WAIT_MS : Z := 100.
Definition KEY_DEDUPE_WINDOW_MS : Z := 100.
Definition PANEL_OFFLINE_TIMEOUT_MS : Z := 300.

(** ** Frame codec *)

(** [galaxy_checksum]: the [for] loop adds each byte into a [uint32_t]. *)
Definition galaxy_checksum_acc (data : list Z) : Z :=
  fold_left (fun temp b => add32 temp b) data 0xAA.

(** The [return] expression: the four bytes of [temp] are added as [int] and
    the sum is converted to the [uint8_t] result. *)
Definition galaxy_checksum_fold (temp : Z) : Z :=
  wrap8 (Z.land (Z.shiftr temp 24) 0xFF + Z.land (Z.shiftr temp 16) 0xFF
         + Z.land (Z.shiftr temp 8) 0xFF + Z.land temp 0xFF).

Definition galaxy_checksum (data : list Z) : Z :=
  galaxy_checksum_fold (galaxy_checksum_acc data).

(** What [send_frame] hands to [write_array]: the payload and its checksum. *)
Definition frame_of (payload : list Z) : list Z :=
  payload ++ [galaxy_checksum payload].

(** ** Key decoder *)

Definition decode_key_and_tamper_ (code : Z) : string * bool :=
  if code =? 0x7F then (EmptyString, true)
  else
    let tamper := negb (Z.land code 0x40 =? 0) in
    let key_code := Z.land code 0x0F in
    match key_code with
    | 0x00 => ("0"%string, tamper)
    | 0x01 => ("1"%string, tamper)
    | 0x02 => ("2"%string, tamper)
    | 0x03 => ("3"%string, tamper)
    | 0x04 => ("4"%string, tamper)
    | 0x05 => ("5"%string, tamper)
    | 0x06 => ("6"%string, tamper)
    | 0x07 => ("7"%string, tamper)
    | 0x08 => ("8"%string, tamper)
    | 0x09 => ("9"%string, tamper)
    | 0x0A => ("B"%string, tamper)
    | 0x0B => ("A"%string, tamper)
    | 0x0C => ("ENT"%string, tamper)
    | 0x0D => ("ESC"%string, tamper)
    | 0x0E => ("*"%string, tamper)
    | 0x0F => ("#"%string, tamper)
    | _ => (EmptyString, tamper)
    end.

(** [key_name.empty()] *)
Definition str_empty (s : string) : bool :=
  match s with EmptyString => true | String _ _ => false end.

(** The local [tamper_only] of [handle_reply_for_cmd_]. *)
Definition tamper_only_of (decoded : string * bool) : bool :=
  str_empty (fst decoded) && snd decoded.

(** ** The component's members *)

Inductive LastCmd : Type :=
| CMD_NONE
| CMD_POLL_00
| CMD_ACTIVITY_19
| CMD_SCREEN_07
| CMD_BEEP_0C
| CMD_BACKLIGHT_0D.

Definition LastCmd_eqb (a b : LastCmd) : bool :=
  match a, b with
  | CMD_NONE, CMD_NONE | CMD_POLL_00, CMD_POLL_00
  | CMD_ACTIVITY_19, CMD_ACTIVITY_19 | CMD_SCREEN_07, CMD_SCREEN_07
  | CMD_BEEP_0C, CMD_BEEP_0C | CMD_BACKLIGHT_0D, CMD_BACKLIGHT_0D => true
  | _, _ => false
  end.

(** A [text_sensor::TextSensor *] is a handle; [nullptr] is [None]. *)
Definition TextSensor : Type := nat.

Record St : Type := Build_St {
  display_text_ : string;
  display_line1_ : string;
  display_line2_ : string;
  input_buffer_ : string;
  rx_sens_ : option TextSensor;

  last_init_poll_ : Z;
  last_activity_poll_ : Z;
  last_screen_push_ : Z;
  last_tx_time_ : Z;
  last_key_ts_ : Z;
  backlight_off_at_ : Z;

  awaiting_reply_ : bool;
  last_cmd_ : LastCmd;
  sent_second_init_ : bool;
  needs_button_ack_ : bool;
  screen_dirty_ : bool;
  beep_set_ : bool;
  backlight_on_ : bool;
  backlight_cmd_pending_ : bool;
  backlight_target_on_ : bool;
  in_tamper_ : bool;

  last_key_name_ : string;
  last_key_tamper_ : bool;

  backlight_timeout_ms_ : Z;
  ack_toggle_ : Z;
  device_id_ : Z;
  beep_mode_ : Z;
  beep_period_ : Z;
  beep_quiet_period_ : Z;
  screen_seq_flag_ : Z;

  need_reinit_after_f2_ : bool;
  key_ack_pending_ : bool;
  ack_pending_code_ : Z;

  rx_buf_ : list Z;

  last_panel_rx_ms_ : Z;
  panel_online_ : bool
}.

(** The default member initialisers of the class. *)
Definition St_init : St :=
  {| display_text_ := "ESP-HOME|Initializing";
     display_line1_ := "ESP-HOME";
     display_line2_ := "Initializing";
     input_buffer_ := "";
     rx_sens_ := None;
     last_init_poll_ := 0;
     last_activity_poll_ := 0;
     last_screen_push_ := 0;
     last_tx_time_ := 0;
     last_key_ts_ := 0;
     backlight_off_at_ := 0;
     awaiting_reply_ := false;
     last_cmd_ := CMD_NONE;
     sent_second_init_ := false;
     needs_button_ack_ := false;
     screen_dirty_ := true;
     beep_set_ := false;
     backlight_on_ := false;
     backlight_cmd_pending_ := false;
     backlight_target_on_ := false;
     in_tamper_ := false;
     last_key_name_ := "";
     last_key_tamper_ := false;
     backlight_timeout_ms_ := 15000;
     ack_toggle_ := 0x02;
     device_id_ := 0x20;
     beep_mode_ := 0x00;
     beep_period_ := 0x00;
     beep_quiet_period_ := 0x00;
     screen_seq_flag_ := 0x00;
     need_reinit_after_f2_ := false;
     key_ack_pending_ := false;
     ack_pending_code_ := 0x00;
     rx_buf_ := [];
     last_panel_rx_ms_ := 0;
     panel_online_ := false |}.

(** Assignment to one member: the record is taken apart once and rebuilt
    with the assigned field replaced.  [mk_setter proj] builds that term for
    the field of projection [proj] from the eta-expansion [St_eta]. *)
Definition St_eta (s : St) : St :=
  Build_St (display_text_ s) (display_line1_ s) (display_line2_ s)
    (input_buffer_ s) (rx_sens_ s)
    (last_init_poll_ s) (last_activity_poll_ s) (last_screen_push_ s)
    (last_tx_time_ s) (last_key_ts_ s) (backlight_off_at_ s)
    (awaiting_reply_ s) (last_cmd_ s) (sent_second_init_ s)
    (needs_button_ack_ s) (screen_dirty_ s) (beep_set_ s) (backlight_on_ s)
    (backlight_cmd_pending_ s) (backlight_target_on_ s) (in_tamper_ s)
    (last_key_name_ s) (last_key_tamper_ s)
    (backlight_timeout_ms_ s) (ack_toggle_ s) (device_id_ s) (beep_mode_ s)
    (beep_period_ s) (beep_quiet_period_ s) (screen_seq_flag_ s)
    (need_reinit_after_f2_ s) (key_ack_pending_ s) (ack_pending_code_ s)
    (rx_buf_ s) (last_panel_rx_ms_ s) (panel_online_ s).

Ltac mk_setter proj :=
  let v := fresh "v" in
  let s := fresh "s" in
  intros v s;
  let body := fresh "body" in
  let fld := fresh "fld" in
  pose (body := St_eta s); pose (fld := proj s);
  destruct s;
  let b := eval cbv in body in
  let f := eval cbv in fld in
  match eval pattern f in b with
  | ?g _ => let r := eval cbv beta in (g v) in exact r
  end.

Definition set_display_text_ : string -> St -> St :=
  Eval cbv beta zeta in ltac:(mk_setter display_text_).
Definition set_display_line1_ : string -> St -> St :=
  Eval cbv beta zeta in ltac:(mk_setter display_line1_).
Definition set_display_line2_ : string -> St -> St :=
  Eval cbv beta zeta in ltac:(mk_setter display_line2_).
Definition set_input_buffer_ : string -> St -> St :=
  Eval cbv beta zeta in ltac:(mk_setter input_buffer_).
Definition set_rx_sens_ : option TextSensor -> St -> St :=
  Eval cbv beta zeta in ltac:(mk_setter rx_sens_).
Definition set_last_init_poll_ : Z -> St -> St :=
  Eval cbv beta zeta in ltac:(mk_setter last_init_poll_).
Definition set_last_activity_poll_ : Z -> St -> St :=
  Eval cbv beta zeta in ltac:(mk_setter last_activity_poll_).
Definition set_last_screen_push_ : Z -> St -> St :=
  Eval cbv beta zeta in ltac:(mk_setter last_screen_push_).
Definition set_last_tx_time_ : Z -> St -> St :=
  Eval cbv beta zeta in ltac:(mk_setter last_tx_time_).
Definition set_last_key_ts_ : Z -> St -> St :=
  Eval cbv beta zeta in ltac:(mk_setter last_key_ts_).
Definition set_backlight_off_at_ : Z -> St -> St :=
  Eval cbv beta zeta in ltac:(mk_setter backlight_off_at_).
Definition set_awaiting_reply_ : bool -> St -> St :=
  Eval cbv beta zeta in ltac:(mk_setter awaiting_reply_).
Definition set_last_cmd_ : LastCmd -> St -> St :=
  Eval cbv beta zeta in ltac:(mk_setter last_cmd_).
Definition set_sent_second_init_ : bool -> St -> St :=
  Eval cbv beta zeta in ltac:(mk_setter sent_second_init_).
Definition set_needs_button_ack_ : bool -> St -> St :=
  Eval cbv beta zeta in ltac:(mk_setter needs_button_ack_).
Definition set_screen_dirty_ : bool -> St -> St :=
  Eval cbv beta zeta in ltac:(mk_setter screen_dirty_).
Definition set_beep_set_ : bool -> St -> St :=
  Eval cbv beta zeta in ltac:(mk_setter beep_set_).
Definition set_backlight_on_ : bool -> St -> St :=
  Eval cbv beta zeta in ltac:(mk_setter backlight_on_).
Definition set_backlight_cmd_pending_ : bool -> St -> St :=
  Eval cbv beta zeta in ltac:(mk_setter backlight_cmd_pending_).
Definition set_backlight_target_on_ : bool -> St -> St :=
  Eval cbv beta zeta in ltac:(mk_setter backlight_target_on_).
Definition set_in_tamper_ : bool -> St -> St :=
  Eval cbv beta zeta in ltac:(mk_setter in_tamper_).
Definition set_last_key_name_ : string -> St -> St :=
  Eval cbv beta zeta in ltac:(mk_setter last_key_name_).
Definition set_last_key_tamper_ : bool -> St -> St :=
  Eval cbv beta zeta in ltac:(mk_setter last_key_tamper_).
Definition set_backlight_timeout_ms_ : Z -> St -> St :=
  Eval cbv beta zeta in ltac:(mk_setter backlight_timeout_ms_).
Definition set_ack_toggle_ : Z -> St -> St :=
  Eval cbv beta zeta in ltac:(mk_setter ack_toggle_).
Definition set_device_id_ : Z -> St -> St :=
  Eval cbv beta zeta in ltac:(mk_setter device_id_).
Definition set_beep_mode_ : Z -> St -> St :=
  Eval cbv beta zeta in ltac:(mk_setter beep_mode_).
Definition set_beep_period_ : Z -> St -> St :=
  Eval cbv beta zeta in ltac:(mk_setter beep_period_).
Definition set_beep_quiet_period_ : Z -> St -> St :=
  Eval cbv beta zeta in ltac:(mk_setter beep_quiet_period_).
Definition set_screen_seq_flag_ : Z -> St -> St :=
  Eval cbv beta zeta in ltac:(mk_setter screen_seq_flag_).
Definition set_need_reinit_after_f2_ : bool -> St -> St :=
  Eval cbv beta zeta in ltac:(mk_setter need_reinit_after_f2_).
Definition set_key_ack_pending_ : bool -> St -> St :=
  Eval cbv beta zeta in ltac:(mk_setter key_ack_pending_).
Definition set_ack_pending_code_ : Z -> St -> St :=
  Eval cbv beta zeta in ltac:(mk_setter ack_pending_code_).
Definition set_rx_buf_ : list Z -> St -> St :=
  Eval cbv beta zeta in ltac:(mk_setter rx_buf_).
Definition set_last_panel_rx_ms_ : Z -> St -> St :=
  Eval cbv beta zeta in ltac:(mk_setter last_panel_rx_ms_).
Definition set_panel_online_ : bool -> St -> St :=
  Eval cbv beta zeta in ltac:(mk_setter panel_online_).

(** ** Environment and effects *)

(** The lambda handed to [set_timeout] in [handle_keypress_]. *)
Inductive Callback : Type :=
| ClearRxSens.

(** Calls that leave the component, in program order.  [EvKeypress] marks
    entry into [handle_keypress_]; it is not an I/O action, it lets the
    number of invocations be read off the trace. *)
Inductive Event : Type :=
| EvWrite (frame : list Z)                               (* write_array *)
| EvPublish (sens : TextSensor) (state : string)         (* publish_state *)
| EvSetTimeout (name : string) (ms : Z) (cb : Callback)  (* set_timeout *)
| EvKeypress (key_name : string) (tamper : bool).

(** [clock n] is the value the [n]-th call of [millis()] returns, [reads]
    counts the calls made so far; [uart_rx] holds the bytes [available()]
    reports. *)
Record Env : Type := Build_Env {
  clock : nat -> Z;
  reads : nat;
  uart_rx : list Z;
  trace : list Event
}.

Definition M (A : Type) : Type := St -> Env -> A * St * Env.

Definition ret {A} (a : A) : M A := fun s e => (a, s, e).

Definition bind {A B} (m : M A) (k : A -> M B) : M B :=
  fun s e => let '(a, s1, e1) := m s e in k a s1 e1.

Declare Scope keypad_scope.
Delimit Scope keypad_scope with keypad.
Notation "x <- c1 ;; c2" := (bind c1 (fun x => c2))
  (at level 61, c1 at next level, right associativity) : keypad_scope.
Notation "c1 ;; c2" := (bind c1 (fun _ => c2))
  (at level 61, right associativity) : keypad_scope.
Open Scope keypad_scope.

Definition get : M St := fun s e => (s, s, e).
Definition gets {A} (f : St -> A) : M A := fun s e => (f s, s, e).
Definition modify (f : St -> St) : M unit := fun s e => (tt, f s, e).
Definition when (b : bool) (m : M unit) : M unit := if b then m else ret tt.

Definition millis : M Z :=
  fun s e =>
    let (clk, n, fifo, tr) := e in
    (wrap32 (clk n), s, Build_Env clk (S n) fifo tr).

Definition emit (ev : Event) : M unit :=
  fun s e =>
    let (clk, n, fifo, tr) := e in
    (tt, s, Build_Env clk n fifo (tr ++ [ev])).

(** Final state, environment and result of a run. *)
Definition st_of {A} (r : A * St * Env) : St := snd (fst r).
Definition env_of {A} (r : A * St * Env) : Env := snd r.
Definition val_of {A} (r : A * St * Env) : A := fst (fst r).

(** ** Strings as the code uses them *)

(** [s.push_back(c)] *)
Definition push_back (s : string) (c : ascii) : string :=
  (s ++ String c EmptyString)%string.

(** [std::string(n, c)] *)
Fixpoint str_fill (n : nat) (c : ascii) : string :=
  match n with
  | O => EmptyString
  | S n' => String c (str_fill n' c)
  end.

(** [if (l.size() > n) l.resize(n); else l.resize(n, pad);] *)
Fixpoint str_resize (n : nat) (pad : ascii) (l : string) : string :=
  match n with
  | O => EmptyString
  | S n' =>
      match l with
      | EmptyString => String pad (str_resize n' pad EmptyString)
      | String c l' => String c (str_resize n' pad l')
      end
  end.

(** The bytes [frame.insert] copies from a string. *)
Definition bytes_of_string (s : string) : list Z :=
  map (fun c => Z.of_N (N_of_ascii c)) (list_ascii_of_string s).

(** [std::isdigit] on an [unsigned char]. *)
Definition isdigit (c : ascii) : bool :=
  let n := N_of_ascii c in (48 <=? n)%N && (n <=? 57)%N.

(** [display_text_.find('|')]: the prefix before the first ['|'] and the
    rest after it, or [None] for [npos]. *)
Fixpoint split_pipe (s : string) : option (string * string) :=
  match s with
  | EmptyString => None
  | String c rest =>
      if Ascii.eqb c "|"%char then Some (EmptyString, rest)
      else match split_pipe rest with
           | Some (a, b) => Some (String c a, b)
           | None => None
           end
  end.

(** ** Member functions *)

Definition send_frame (payload : list Z) : M unit :=
  emit (EvWrite (frame_of payload)).

Definition parse_display_text_ : M unit :=
  text <- gets display_text_ ;;
  match split_pipe text with
  | Some (l1, l2) =>
      modify (set_display_line1_ l1) ;;
      modify (set_display_line2_ l2)
  | None =>
      modify (set_display_line1_ text) ;;
      modify (set_display_line2_ EmptyString)
  end.

Definition bump_backlight_ : M unit :=
  now <- millis ;;
  timeout <- gets backlight_timeout_ms_ ;;
  modify (set_backlight_off_at_ (add32 now timeout)) ;;
  on <- gets backlight_on_ ;;
  when (negb on)
    (modify (set_backlight_target_on_ true) ;;
     modify (set_backlight_cmd_pending_ true)).

Definition set_display_text (text : string) : M unit :=
  (if str_empty text
   then modify (set_display_text_ "ESP-HOME|Initializing")
   else modify (set_display_text_ text)) ;;
  parse_display_text_ ;;
  modify (set_screen_dirty_ true) ;;
  bump_backlight_.

Definition set_display_text_nobl (text : string) : M unit :=
  (if str_empty text
   then modify (set_display_text_ "ESP-HOME|Initializing")
   else modify (set_display_text_ text)) ;;
  parse_display_text_ ;;
  modify (set_screen_dirty_ true).

Definition set_beep_enabled (enabled : bool) (beep_period quiet_period : Z)
  : M unit :=
  modify (set_beep_mode_ (if enabled then 0x01 else 0x00)) ;;
  modify (set_beep_period_ beep_period) ;;
  modify (set_beep_quiet_period_ quiet_period) ;;
  modify (set_beep_set_ false).

Definition queue_screen_push_ : M unit :=
  modify (set_screen_dirty_ true) ;;
  now <- millis ;;
  modify (set_last_screen_push_ now).

Definition build_screen_frame_ : M (list Z) :=
  let modifier := 0x01 in
  seq0 <- gets screen_seq_flag_ ;;
  modify (set_screen_seq_flag_ (if seq0 =? 0x00 then 0x80 else 0x00)) ;;
  seq1 <- gets screen_seq_flag_ ;;
  let modifier := Z.lor modifier seq1 in
  needs <- gets needs_button_ack_ ;;
  modifier <-
    (if needs then
       ack <- gets ack_toggle_ ;;
       let modifier := Z.lor modifier 0x10 in
       let modifier := Z.lor modifier ack in
       modify (set_ack_toggle_ (if ack =? 0x00 then 0x02 else 0x00)) ;;
       modify (set_needs_button_ack_ false) ;;
       ret modifier
     else ret modifier) ;;
  s <- get ;;
  let frame := [device_id_ s; 0x07; modifier; 0x17] in
  let line2 :=
    if str_empty (input_buffer_ s) then display_line2_ s
    else str_fill (Nat.min (String.length (input_buffer_ s)) 16) "*"%char in
  let line1 := display_line1_ s in
  let line1 := str_resize 16 " "%char line1 in
  let line2 := str_resize 16 " "%char line2 in
  let frame := frame ++ bytes_of_string line1 in
  let frame := frame ++ [0x02] in
  let frame := frame ++ bytes_of_string line2 in
  let frame := frame ++ [0x07] in
  ret frame.

Definition setup : M unit :=
  parse_display_text_ ;;
  now0 <- millis ;;
  timeout <- gets backlight_timeout_ms_ ;;
  modify (set_backlight_off_at_ (add32 now0 timeout)) ;;
  modify (set_backlight_target_on_ false) ;;
  modify (set_backlight_cmd_pending_ false) ;;
  modify (set_backlight_on_ false) ;;
  now <- millis ;;
  modify (set_last_init_poll_ now) ;;
  dev <- gets device_id_ ;;
  send_frame [dev; 0x00; 0x0E] ;;
  modify (set_last_cmd_ CMD_POLL_00) ;;
  modify (set_awaiting_reply_ true) ;;
  modify (set_last_tx_time_ now) ;;
  modify (set_last_activity_poll_ now) ;;
  modify (set_rx_buf_ []).

Definition update_tamper_state_ (new_tamper : bool) : M unit :=
  cur <- gets in_tamper_ ;;
  if Bool.eqb new_tamper cur then ret tt
  else modify (set_in_tamper_ new_tamper).

(** [key_name[0]] of a non-empty string. *)
Definition str_front (s : string) : ascii :=
  match s with
  | String c _ => c
  | EmptyString => zero
  end.

Definition handle_keypress_ (key_name : string) (tamper : bool) : M unit :=
  emit (EvKeypress key_name tamper) ;;
  bump_backlight_ ;;
  if String.eqb key_name "ESC" then
    buf <- gets input_buffer_ ;;
    when (negb (str_empty buf))
      (modify (set_input_buffer_ EmptyString) ;;
       modify (set_screen_dirty_ true)) ;;
    modify (set_screen_dirty_ true)
  else if String.eqb key_name "ENT" then
    buf <- gets input_buffer_ ;;
    if negb (str_empty buf) then
      let code := buf in
      modify (set_input_buffer_ EmptyString) ;;
      modify (set_screen_dirty_ true) ;;
      sens <- gets rx_sens_ ;;
      match sens with
      | Some p =>
          emit (EvPublish p code) ;;
          emit (EvSetTimeout "clear_rx_sens" 200 ClearRxSens)
      | None => ret tt
      end
    else
      modify (set_screen_dirty_ true)
  else
    let c := str_front key_name in
    if (String.length key_name =? 1)%nat
       && (isdigit c || Ascii.eqb c "*"%char || Ascii.eqb c "#"%char)
    then
      buf <- gets input_buffer_ ;;
      modify (set_input_buffer_ (push_back buf c)) ;;
      modify (set_screen_dirty_ true)
    else if String.eqb key_name "A" || String.eqb key_name "B" then
      buf <- gets input_buffer_ ;;
      modify (set_input_buffer_ (push_back buf c)) ;;
      modify (set_screen_dirty_ true)
    else ret tt.

(** What the scheduler of the host runs when a timeout fires. *)
Definition run_callback (cb : Callback) : M unit :=
  match cb with
  | ClearRxSens =>
      sens <- gets rx_sens_ ;;
      match sens with
      | Some p => emit (EvPublish p EmptyString)
      | None => ret tt
      end
  end.

Definition handle_reply_for_cmd_ (bytes : list Z) : M unit :=
  match bytes with
  | [] => ret tt
  | b0 :: _ =>
    if negb (b0 =? KEYPAD_ADDR) then ret tt
    else
      now <- millis ;;
      modify (set_last_panel_rx_ms_ now) ;;
      online <- gets panel_online_ ;;
      when (negb online)
        (modify (set_panel_online_ true) ;;
         modify (set_beep_set_ false) ;;
         modify (set_screen_dirty_ true)) ;;
      let size := List.length bytes in
      let type := if (2 <=? size)%nat then nth 1 bytes 0 else 0x00 in
      last_cmd <- gets last_cmd_ ;;
      if LastCmd_eqb last_cmd CMD_ACTIVITY_19 && (type =? 0xFE)
         && (3 <=? size)%nat && (nth 2 bytes 0 =? 0xBA)
      then ret tt
      else if LastCmd_eqb last_cmd CMD_SCREEN_07 && (type =? 0xF2) then
        modify (set_need_reinit_after_f2_ true) ;;
        modify (set_screen_dirty_ true)
      else if LastCmd_eqb last_cmd CMD_SCREEN_07 && (type =? 0xFE)
              && (3 <=? size)%nat && (nth 2 bytes 0 =? 0xBA)
      then update_tamper_state_ false
      else if (LastCmd_eqb last_cmd CMD_BEEP_0C
               || LastCmd_eqb last_cmd CMD_BACKLIGHT_0D)
              && (type =? 0xFE) && (3 <=? size)%nat
              && (nth 2 bytes 0 =? 0xBA)
      then ret tt
      else if (type =? 0xF4) && (size =? 4)%nat then
        let code := nth 2 bytes 0 in
        let cs := nth 3 bytes 0 in
        let expected := galaxy_checksum [KEYPAD_ADDR; 0xF4; code] in
        if negb (expected =? cs) then ret tt
        else
          let decoded := decode_key_and_tamper_ code in
          let key_name := fst decoded in
          let tamper := snd decoded in
          let tamper_only := str_empty key_name && tamper in
          update_tamper_state_ tamper ;;
          if LastCmd_eqb last_cmd CMD_SCREEN_07 then
            when (code =? 0x7F)
              (modify (set_key_ack_pending_ false) ;;
               modify (set_ack_pending_code_ 0x00))
          else if LastCmd_eqb last_cmd CMD_ACTIVITY_19 then
            if tamper_only then ret tt
            else if str_empty key_name && negb tamper then ret tt
            else
              now_ms <- millis ;;
              s <- get ;;
              let duplicate_time :=
                String.eqb key_name (last_key_name_ s)
                && Bool.eqb tamper (last_key_tamper_ s)
                && (sub32 now_ms (last_key_ts_ s) <=? KEY_DEDUPE_WINDOW_MS) in
              let duplicate_ack :=
                key_ack_pending_ s && (code =? ack_pending_code_ s) in
              (if negb duplicate_time && negb duplicate_ack then
                 modify (set_last_key_name_ key_name) ;;
                 modify (set_last_key_tamper_ tamper) ;;
                 modify (set_last_key_ts_ now_ms) ;;
                 handle_keypress_ key_name tamper
               else ret tt) ;;
              modify (set_needs_button_ack_ true) ;;
              modify (set_screen_dirty_ true) ;;
              modify (set_key_ack_pending_ true) ;;
              modify (set_ack_pending_code_ code)
          else ret tt
      else ret tt
  end.

(** [loop], lines 221-253: the [if / else if] chain choosing [cmd_to_send]. *)
Definition loop_pick_ (now : Z) : M LastCmd :=
  s <- get ;;
  if negb (sent_second_init_ s)
     && (INIT_POLL_SECOND_MS <=? sub32 now (last_init_poll_ s))
  then ret CMD_POLL_00
  else if sent_second_init_ s && screen_dirty_ s then ret CMD_SCREEN_07
  else if INIT_POLL_INTERVAL_MS <=? sub32 now (last_init_poll_ s) then
    modify (set_ack_toggle_ 0x02) ;;
    modify (set_screen_seq_flag_ 0x00) ;;
    ret CMD_POLL_00
  else if sent_second_init_ s && negb (beep_set_ s) then ret CMD_BEEP_0C
  else if backlight_cmd_pending_ s then ret CMD_BACKLIGHT_0D
  else if ACTIVITY_POLL_INTERVAL_MS <=? sub32 now (last_activity_poll_ s)
  then ret CMD_ACTIVITY_19
  else ret CMD_NONE.

(** [loop], lines 256-300: the [switch (cmd_to_send)]. *)
Definition loop_switch_ (now : Z) (cmd_to_send : LastCmd) : M unit :=
  match cmd_to_send with
  | CMD_POLL_00 =>
      sent <- gets sent_second_init_ ;;
      dev <- gets device_id_ ;;
      (if negb sent then
         send_frame [dev; 0x00; 0x0F] ;;
         modify (set_sent_second_init_ true)
       else send_frame [dev; 0x00; 0x0F]) ;;
      modify (set_last_init_poll_ now)
  | CMD_SCREEN_07 =>
      screen <- build_screen_frame_ ;;
      send_frame screen ;;
      modify (set_last_screen_push_ now) ;;
      modify (set_screen_dirty_ false) ;;
      bump_backlight_
  | CMD_ACTIVITY_19 =>
      dev <- gets device_id_ ;;
      send_frame [dev; 0x19; 0x01] ;;
      modify (set_last_activity_poll_ now)
  | CMD_BEEP_0C =>
      s <- get ;;
      send_frame [device_id_ s; 0x0C; beep_mode_ s; beep_period_ s;
                  beep_quiet_period_ s] ;;
      modify (set_beep_set_ true)
  | CMD_BACKLIGHT_0D =>
      target <- gets backlight_target_on_ ;;
      let val := if target then 0x01 else 0x00 in
      dev <- gets device_id_ ;;
      send_frame [dev; 0x0D; val] ;;
      modify (set_backlight_on_ target) ;;
      modify (set_backlight_cmd_pending_ false)
  | CMD_NONE => ret tt
  end.

(** [loop], lines 196-307: the idle branch.  The result is [true] when the
    function returned from inside it (line 218). *)
Definition loop_schedule_ (now : Z) : M bool :=
  awaiting <- gets awaiting_reply_ ;;
  if negb awaiting then
    reinit <- gets need_reinit_after_f2_ ;;
    if reinit then
      dev <- gets device_id_ ;;
      send_frame [dev; 0x00; 0x0F] ;;
      modify (set_last_cmd_ CMD_POLL_00) ;;
      modify (set_awaiting_reply_ true) ;;
      modify (set_last_tx_time_ now) ;;
      modify (set_last_init_poll_ now) ;;
      modify (set_ack_toggle_ 0x02) ;;
      modify (set_screen_seq_flag_ 0x00) ;;
      modify (set_need_reinit_after_f2_ false) ;;
      modify (set_rx_buf_ []) ;;
      modify (set_screen_dirty_ true) ;;
      ret true
    else
      cmd_to_send <- loop_pick_ now ;;
      (if negb (LastCmd_eqb cmd_to_send CMD_NONE) then
         loop_switch_ now cmd_to_send ;;
         modify (set_last_cmd_ cmd_to_send) ;;
         modify (set_awaiting_reply_ true) ;;
         modify (set_last_tx_time_ now) ;;
         modify (set_rx_buf_ [])
       else ret tt) ;;
      ret false
  else ret false.

(** [while (available()) { read_byte(&b); rx_buf_.push_back(b); }] *)
Fixpoint read_all (fifo : list Z) (s : St) : St :=
  match fifo with
  | [] => s
  | b :: fifo' => read_all fifo' (set_rx_buf_ (rx_buf_ s ++ [b]) s)
  end.

Definition rx_accumulate_ : M unit :=
  fun s e =>
    let (clk, n, fifo, tr) := e in
    (tt, read_all fifo s, Build_Env clk n [] tr).

(** [loop], lines 309-336: drain the UART, interpret the reply once the
    wait window has elapsed, then the backlight timeout. *)
Definition loop_finish_ (now : Z) : M unit :=
  rx_accumulate_ ;;
  s1 <- get ;;
  when (awaiting_reply_ s1
        && (REPLY_WAIT_MS <=? sub32 now (last_tx_time_ s1)))
    (buf <- gets rx_buf_ ;;
     when (negb (match buf with [] => true | _ => false end))
       (handle_reply_for_cmd_ buf) ;;
     modify (set_rx_buf_ []) ;;
     modify (set_awaiting_reply_ false)) ;;
  s2 <- get ;;
  when (backlight_on_ s2 && (backlight_off_at_ s2 <=? now))
    (modify (set_backlight_target_on_ false) ;;
     modify (set_backlight_cmd_pending_ true) ;;
     buf <- gets input_buffer_ ;;
     when (negb (str_empty buf))
       (modify (set_input_buffer_ EmptyString) ;;
        modify (set_screen_dirty_ true))).

Definition loop : M unit :=
  now <- millis ;;
  s0 <- get ;;
  when (panel_online_ s0
        && (PANEL_OFFLINE_TIMEOUT_MS <? sub32 now (last_panel_rx_ms_ s0)))
    (modify (set_panel_online_ false)) ;;
  returned <- loop_schedule_ now ;;
  if returned then ret tt else loop_finish_ now.

(** Bytes reaching the UART: they queue up behind those not yet read. *)
Definition uart_receive (bytes : list Z) : M unit :=
  fun s e =>
    let (clk, n, fifo, tr) := e in
    (tt, s, Build_Env clk n (fifo ++ bytes) tr).

(** The host calling [loop] again and again.  [arrivals] holds, for each
    tick, the bytes that reached the UART since the tick before; the clock of
    the environment gives each call of [millis()] its own value. *)
Fixpoint run_ticks (arrivals : list (list Z)) : M unit :=
  match arrivals with
  | [] => ret tt
  | bytes :: arrivals' => uart_receive bytes ;; loop ;; run_ticks arrivals'
  end.

(** ** Vocabulary of the properties *)

(** The sixteen labels of the key table. *)
Definition key_labels : list string :=
  ["0"; "1"; "2"; "3"; "4"; "5"; "6"; "7"; "8"; "9";
   "B"; "A"; "ENT"; "ESC"; "*"; "#"]%string.

(** The checksum as the specification words it: the accumulator is the seed
    [0xAA] plus the sum of the payload, kept in 32 bits; the result is the
    sum of its four bytes, kept in 8 bits. *)
Definition checksum_spec (payload : list Z) : Z :=
  let acc := (0xAA + fold_right Z.add 0 payload) mod 2 ^ 32 in
  ((acc / 2 ^ 24) mod 2 ^ 8 + (acc / 2 ^ 16) mod 2 ^ 8
   + (acc / 2 ^ 8) mod 2 ^ 8 + acc mod 2 ^ 8) mod 2 ^ 8.

(** The scheduler as the specification lists it: seven actions, first match
    wins. *)
Inductive Action : Type :=
| ForcedReinit
| SecondInitPoll
| ScreenUpdate
| PeriodicInitPoll
| BeepConfig
| BacklightSet
| ActivityPoll.

Definition spec_priority (now : Z) (s : St) : option Action :=
  if need_reinit_after_f2_ s then Some ForcedReinit
  else if negb (sent_second_init_ s)
          && (5000 <=? sub32 now (last_init_poll_ s))
  then Some SecondInitPoll
  else if sent_second_init_ s && screen_dirty_ s then Some ScreenUpdate
  else if 5000 <=? sub32 now (last_init_poll_ s) then Some PeriodicInitPoll
  else if sent_second_init_ s && negb (beep_set_ s) then Some BeepConfig
  else if backlight_cmd_pending_ s then Some BacklightSet
  else if 150 <=? sub32 now (last_activity_poll_ s) then Some ActivityPoll
  else None.

(** The payload each action puts on the wire (section 6 of the
    specification), read in the state the tick starts from. *)
Definition action_payload (a : Action) (s : St) (e : Env) : list Z :=
  match a with
  | ForcedReinit | SecondInitPoll | PeriodicInitPoll =>
      [device_id_ s; 0x00; 0x0F]
  | ScreenUpdate => val_of (build_screen_frame_ s e)
  | BeepConfig =>
      [device_id_ s; 0x0C; beep_mode_ s; beep_period_ s; beep_quiet_period_ s]
  | BacklightSet =>
      [device_id_ s; 0x0D; if backlight_target_on_ s then 0x01 else 0x00]
  | ActivityPoll => [device_id_ s; 0x19; 0x01]
  end.

Definition action_cmd (a : Action) : LastCmd :=
  match a with
  | ForcedReinit | SecondInitPoll | PeriodicInitPoll => CMD_POLL_00
  | ScreenUpdate => CMD_SCREEN_07
  | BeepConfig => CMD_BEEP_0C
  | BacklightSet => CMD_BACKLIGHT_0D
  | ActivityPoll => CMD_ACTIVITY_19
  end.

(** The value [millis()] returns next. *)
Definition next_millis (e : Env) : Z := wrap32 (clock e (reads e)).

(** The value of the call of [millis()] after the next one. *)
Definition second_millis (e : Env) : Z := wrap32 (clock e (S (reads e))).

(** What lines 456-465 of [handle_reply_for_cmd_] do to the state on any
    reply that carries the keypad's address. *)
Definition link_refresh (now : Z) (s : St) : St :=
  let s1 := set_last_panel_rx_ms_ now s in
  if panel_online_ s then s1
  else set_screen_dirty_ true (set_beep_set_ false (set_panel_online_ true s1)).

(** A well-formed key/tamper event [addr F4 code checksum]. *)
Definition key_event (code : Z) : list Z :=
  [KEYPAD_ADDR; 0xF4; code; galaxy_checksum [KEYPAD_ADDR; 0xF4; code]].

(** Number of entries into [handle_keypress_] recorded in a trace. *)
Fixpoint keypress_calls (tr : list Event) : nat :=
  match tr with
  | [] => O
  | EvKeypress _ _ :: tr' => S (keypress_calls tr')
  | _ :: tr' => keypress_calls tr'
  end.

(** The two toggles only ever hold these values. *)
Definition toggles_ok (s : St) : Prop :=
  (screen_seq_flag_ s = 0x00 \/ screen_seq_flag_ s = 0x80)
  /\ (ack_toggle_ s = 0x00 \/ ack_toggle_ s = 0x02).

(** The modifier byte of a screen frame. *)
Definition modifier_of (frame : list Z) : Z := nth 2 frame 0.

(** What may change between two screen frames: the display lines, the typed
    input and whether a key acknowledgement is owed. *)
Record ScreenInputs : Type := Build_ScreenInputs {
  si_line1 : string;
  si_line2 : string;
  si_input : string;
  si_owe_ack : bool
}.

Definition apply_inputs (c : ScreenInputs) (s : St) : St :=
  set_needs_button_ack_ (si_owe_ack c)
    (set_input_buffer_ (si_input c)
       (set_display_line2_ (si_line2 c)
          (set_display_line1_ (si_line1 c) s))).

(** One call of [build_screen_frame_] with the state before and after. *)
Record ScreenCall : Type := Build_ScreenCall {
  sc_before : St;
  sc_frame : list Z;
  sc_after : St
}.

(** Consecutive calls of [build_screen_frame_], the [k]-th preceded by the
    [k]-th change of content. *)
Fixpoint build_screens (cs : list ScreenInputs) : M (list ScreenCall) :=
  match cs with
  | [] => ret []
  | c :: cs' =>
      modify (apply_inputs c) ;;
      before <- get ;;
      frame <- build_screen_frame_ ;;
      after <- get ;;
      calls <- build_screens cs' ;;
      ret (Build_ScreenCall before frame after :: calls)
  end.

Definition ScreenCall_default : ScreenCall :=
  Build_ScreenCall St_init [] St_init.

(** An environment whose clock stands at [t], with [fifo] waiting in the
    UART and an empty trace. *)
Definition env_at (t : Z) (fifo : list Z) : Env :=
  Build_Env (fun _ => t) 0 fifo [].

(** Section 4.6 of the specification: a key event is kept from input
    handling when label and tamper equal the last accepted event and at most
    the dedupe window has elapsed, or when an acknowledgement for the same
    raw code is still pending. *)
Definition key_suppressed (code now_ms : Z) (s : St) : bool :=
  let d := decode_key_and_tamper_ code in
  (String.eqb (fst d) (last_key_name_ s)
   && Bool.eqb (snd d) (last_key_tamper_ s)
   && (sub32 now_ms (last_key_ts_ s) <=? KEY_DEDUPE_WINDOW_MS))
  || (key_ack_pending_ s && (code =? ack_pending_code_ s)).

(** [m] preserves the state predicate [I]. *)
Definition keeps {A} (I : St -> Prop) (m : M A) : Prop :=
  forall s e, I s -> I (st_of (m s e)).

(** ** Vocabulary of the further properties *)

(** A value of type [uint8_t]. *)
Definition is_byte (b : Z) : Prop := 0 <= b < 256.

(** The stored display text and its two lines agree: line 1 holds no ['|'],
    and either the text is line 1, a ['|'] and line 2, or the text holds no
    ['|'], is line 1, and line 2 is empty. *)
Definition display_split_ok (s : St) : Prop :=
  ~ In "|"%char (list_ascii_of_string (display_line1_ s))
  /\ (display_text_ s
      = (display_line1_ s ++ "|" ++ display_line2_ s)%string
      \/ (~ In "|"%char (list_ascii_of_string (display_text_ s))
          /\ display_line1_ s = display_text_ s
          /\ display_line2_ s = EmptyString)).

(** A display line on the wire: the first 16 bytes, padded with spaces to
    16. *)
Definition pad16 (l : list Z) : list Z :=
  firstn 16 l ++ repeat 0x20 (16 - List.length l).

(** The frames handed to [write_array], in order. *)
Fixpoint frames_written (tr : list Event) : list (list Z) :=
  match tr with
  | [] => []
  | EvWrite f :: tr' => f :: frames_written tr'
  | _ :: tr' => frames_written tr'
  end.

(** The strings handed to [publish_state], in order. *)
Fixpoint published (tr : list Event) : list string :=
  match tr with
  | [] => []
  | EvPublish _ st :: tr' => st :: published tr'
  | _ :: tr' => published tr'
  end.

(** [m] writes no frame. *)
Definition silent {A} (m : M A) : Prop :=
  forall s e,
    frames_written (trace (env_of (m s e))) = frames_written (trace e).

(** The environment after [n] further calls of [millis()]. *)
Definition after_reads (n : nat) (e : Env) : Env :=
  Build_Env (clock e) (n + reads e) (uart_rx e) (trace e).

(** Lines 586-591 of [handle_reply_for_cmd_]: a screen acknowledgement is
    owed for [code]. *)
Definition arm_ack (code : Z) (s : St) : St :=
  set_ack_pending_code_ code
    (set_key_ack_pending_ true
       (set_screen_dirty_ true (set_needs_button_ack_ true s))).

(** Lines 571-573: the dedupe record of an accepted key event. *)
Definition record_key (key_name : string) (tamper : bool) (now_ms : Z)
  (s : St) : St :=
  set_last_key_ts_ now_ms
    (set_last_key_tamper_ tamper (set_last_key_name_ key_name s)).

(** The fourteen keys that type a character. *)
Definition char_labels : list string :=
  ["0"; "1"; "2"; "3"; "4"; "5"; "6"; "7"; "8"; "9"; "B"; "A"; "*"; "#"]%string.

(** Accepted key presses one after the other. *)
Fixpoint type_keys (keys : list (string * bool)) : M unit :=
  match keys with
  | [] => ret tt
  | (key_name, tamper) :: keys' =>
      handle_keypress_ key_name tamper ;; type_keys keys'
  end.

(** Lines 190-193 of [loop]: the panel is marked offline when more than the
    timeout has passed since the last addressed reply. *)
Definition offline_check (now : Z) (s : St) : St :=
  if panel_online_ s
     && (PANEL_OFFLINE_TIMEOUT_MS <? sub32 now (last_panel_rx_ms_ s))
  then set_panel_online_ false s
  else s.

(** Lines 325-336 of [loop]: the backlight deadline has passed. *)
Definition backlight_expire (now : Z) (s : St) : St :=
  if backlight_on_ s && (backlight_off_at_ s <=? now) then
    let s1 := set_backlight_cmd_pending_ true
                (set_backlight_target_on_ false s) in
    if negb (str_empty (input_buffer_ s1))
    then set_screen_dirty_ true (set_input_buffer_ EmptyString s1)
    else s1
  else s.

(** * Properties *)

(** ** Frame codec *)

Lemma wrap32_add_idemp_l (a b : Z) : wrap32 (wrap32 a + b) = wrap32 (a + b).
Proof. unfold wrap32. apply Zplus_mod_idemp_l. Qed.

Lemma galaxy_checksum_acc_from (data : list Z) :
  forall a,
    fold_left (fun temp b => add32 temp b) data (wrap32 a)
    = wrap32 (a + fold_right Z.add 0 data).
Proof.
  induction data as [|b data IH]; intros a; simpl.
  - now rewrite Z.add_0_r.
  - unfold add32 at 2. rewrite wrap32_add_idemp_l, IH.
    f_equal. lia.
Qed.

Lemma land_0xFF (z : Z) : Z.land z 0xFF = z mod 2 ^ 8.
Proof. change 0xFF with (Z.ones 8). apply Z.land_ones. lia. Qed.

Lemma galaxy_checksum_fold_div (temp : Z) :
  galaxy_checksum_fold temp
  = ((temp / 2 ^ 24) mod 2 ^ 8 + (temp / 2 ^ 16) mod 2 ^ 8
     + (temp / 2 ^ 8) mod 2 ^ 8 + temp mod 2 ^ 8) mod 2 ^ 8.
Proof.
  unfold galaxy_checksum_fold, wrap8.
  rewrite !land_0xFF, !Z.shiftr_div_pow2 by lia.
  reflexivity.
Qed.

(** C7. [galaxy_checksum] depends on its payload only: it is the seed 0xAA
    plus the sum of the payload bytes in a 32-bit accumulator, folded by
    adding the accumulator's four bytes modulo 256; and the payload
    [20 00 0E] has checksum [D8]. *)
Theorem galaxy_checksum_additive (data : list Z) :
  galaxy_checksum data = checksum_spec data
  /\ galaxy_checksum [0x20; 0x00; 0x0E] = 0xD8.
Proof.
  split; [|reflexivity].
  unfold galaxy_checksum, checksum_spec.
  rewrite galaxy_checksum_fold_div.
  assert (Hacc : galaxy_checksum_acc data
                 = (0xAA + fold_right Z.add 0 data) mod 2 ^ 32).
  { unfold galaxy_checksum_acc.
    change (fold_left (fun temp b => add32 temp b) data 0xAA)
      with (fold_left (fun temp b => add32 temp b) data (wrap32 0xAA)).
    apply galaxy_checksum_acc_from. }
  rewrite Hacc. reflexivity.
Qed.

(** ** Key decoder *)

Lemma low_nibble_cases (code : Z) :
  let k := Z.land code 0x0F in
  k = 0 \/ k = 1 \/ k = 2 \/ k = 3 \/ k = 4 \/ k = 5 \/ k = 6 \/ k = 7 \/
  k = 8 \/ k = 9 \/ k = 10 \/ k = 11 \/ k = 12 \/ k = 13 \/ k = 14 \/ k = 15.
Proof.
  intros k.
  assert (Hk : k = code mod 16) by (apply (Z.land_ones code 4); lia).
  pose proof (Z.mod_pos_bound code 16 eq_refl). lia.
Qed.

Lemma decode_label_in_table (code : Z) :
  code <> 0x7F ->
  In (fst (decode_key_and_tamper_ code)) key_labels
  /\ snd (decode_key_and_tamper_ code) = negb (Z.land code 0x40 =? 0).
Proof.
  intros Hne. unfold decode_key_and_tamper_.
  destruct (Z.eqb_spec code 0x7F) as [->|_]; [congruence|].
  pose proof (low_nibble_cases code) as Hk. cbv zeta in Hk.
  repeat (destruct Hk as [Hk|Hk]; [rewrite Hk; simpl; tauto|]).
  rewrite Hk; simpl; tauto.
Qed.

Lemma key_labels_nonempty (l : string) :
  In l key_labels -> str_empty l = false.
Proof.
  unfold key_labels. simpl.
  intros H. repeat (destruct H as [<-|H]; [reflexivity|]). contradiction.
Qed.

(** C10. [decode_key_and_tamper_] returns for every byte; for every byte but
    the sentinel 0x7F the label is one of the sixteen of the key table, so it
    is not empty.  Hence a tamper-only result (empty label, tamper set)
    occurs exactly for 0x7F, and the guard "empty label and no tamper" of the
    interpreter's safety branch is false for every code. *)
Theorem decode_key_and_tamper_covers (code : Z) :
  let d := decode_key_and_tamper_ code in
  (if code =? 0x7F then d = (EmptyString, true)
   else In (fst d) key_labels /\ str_empty (fst d) = false)
  /\ tamper_only_of d = (code =? 0x7F)
  /\ str_empty (fst d) && negb (snd d) = false.
Proof.
  cbv zeta. destruct (Z.eqb_spec code 0x7F) as [->|Hne].
  - repeat split.
  - destruct (decode_label_in_table code Hne) as [Hin _].
    pose proof (key_labels_nonempty _ Hin) as Hemp.
    unfold tamper_only_of. rewrite Hemp. repeat split; assumption.
Qed.

(** ** Reply interpreter *)

Ltac unfold_m :=
  unfold bind, ret, get, gets, modify, when, millis, emit, send_frame,
    st_of, env_of, val_of in *.

(** C8. A reply that is empty or whose first byte is not the keypad's address
    0x11 leaves every member of the component, and the environment,
    untouched. *)
Theorem handle_reply_wrong_address_noop
  (bytes : list Z) (s : St) (e : Env) :
  hd_error bytes <> Some KEYPAD_ADDR ->
  handle_reply_for_cmd_ bytes s e = (tt, s, e).
Proof.
  intros Hhd. destruct bytes as [|b0 rest]; [reflexivity|].
  unfold handle_reply_for_cmd_.
  destruct (Z.eqb_spec b0 KEYPAD_ADDR) as [->|_]; [|reflexivity].
  now elim Hhd.
Qed.

Lemma handle_reply_wrong_address_noop_witness :
  hd_error [0x20; 0xF4; 0x01; 0xE9] <> Some KEYPAD_ADDR
  /\ handle_reply_for_cmd_ [0x20; 0xF4; 0x01; 0xE9] St_init (env_at 1000 [])
     = (tt, St_init, env_at 1000 []).
Proof.
  split.
  - discriminate.
  - apply handle_reply_wrong_address_noop. discriminate.
Defined.

(** C2 (as the code has it). A reply that carries the keypad's address and
    type 0xF4 but is malformed (its length is not 4, or its last byte is not
    the checksum of address, 0xF4 and code) changes nothing but the link
    state: the last-receive time becomes the current time and, if the panel
    was offline, it is marked online with the beep configuration and the
    screen scheduled again.  Tamper state, input buffer and the pending
    acknowledgement are unchanged and nothing is sent. *)
Theorem handle_reply_malformed_f4_link_only
  (rest : list Z) (s : St) (e : Env) :
  let bytes := KEYPAD_ADDR :: 0xF4 :: rest in
  (List.length bytes <> 4%nat
   \/ nth 3 bytes 0 <> galaxy_checksum [KEYPAD_ADDR; 0xF4; nth 2 bytes 0]) ->
  let r := handle_reply_for_cmd_ bytes s e in
  st_of r = link_refresh (next_millis e) s
  /\ trace (env_of r) = trace e
  /\ in_tamper_ (st_of r) = in_tamper_ s
  /\ input_buffer_ (st_of r) = input_buffer_ s
  /\ key_ack_pending_ (st_of r) = key_ack_pending_ s
  /\ ack_pending_code_ (st_of r) = ack_pending_code_ s
  /\ needs_button_ack_ (st_of r) = needs_button_ack_ s
  /\ last_panel_rx_ms_ (st_of r) = next_millis e
  /\ panel_online_ (st_of r) = true.
Proof.
  intros bytes Hbad r.
  assert (Hr : st_of r = link_refresh (next_millis e) s
               /\ trace (env_of r) = trace e).
  { subst r bytes. unfold handle_reply_for_cmd_, link_refresh, next_millis.
    destruct s, e; destruct rest as [|c [|cs [|x rest']]];
      cbn -[galaxy_checksum wrap32] in *.
    all: try (destruct Hbad as [Hbad|Hbad]; [congruence|];
              apply Z.eqb_neq in Hbad; rewrite Z.eqb_sym in Hbad;
              rewrite Hbad).
    all: destruct panel_online_0, last_cmd_0; unfold_m;
      cbn -[galaxy_checksum wrap32]; split; reflexivity. }
  destruct Hr as [Hst Htr]. rewrite Hst.
  split; [reflexivity|]. split; [exact Htr|].
  unfold link_refresh. destruct s; cbn.
  destruct panel_online_0; cbn; repeat split.
Qed.

Lemma handle_reply_malformed_f4_link_only_witness :
  let bytes := KEYPAD_ADDR :: 0xF4 :: [0x01; 0x00] in
  let r := handle_reply_for_cmd_ bytes St_init (env_at 1000 []) in
  st_of r = link_refresh 1000 St_init
  /\ trace (env_of r) = []
  /\ in_tamper_ (st_of r) = false
  /\ input_buffer_ (st_of r) = EmptyString
  /\ key_ack_pending_ (st_of r) = false
  /\ ack_pending_code_ (st_of r) = 0
  /\ needs_button_ack_ (st_of r) = false
  /\ last_panel_rx_ms_ (st_of r) = 1000
  /\ panel_online_ (st_of r) = true.
Proof.
  apply (handle_reply_malformed_f4_link_only [0x01; 0x00] St_init
           (env_at 1000 [])).
  right. vm_compute. discriminate.
Defined.

(** C2, as stated, fails: on a cold start (panel offline, last receive time
    0) the reply [11 F4 01 00], whose checksum byte is wrong, marks the panel
    online and moves the last-receive time to the current time. *)
Lemma handle_reply_malformed_f4_mutates_link :
  let bytes := [0x11; 0xF4; 0x01; 0x00] in
  let r := handle_reply_for_cmd_ bytes St_init (env_at 1000 []) in
  hd_error bytes = Some KEYPAD_ADDR
  /\ nth 3 bytes 0 <> galaxy_checksum [KEYPAD_ADDR; 0xF4; nth 2 bytes 0]
  /\ panel_online_ St_init = false
  /\ panel_online_ (st_of r) = true
  /\ last_panel_rx_ms_ St_init = 0
  /\ last_panel_rx_ms_ (st_of r) = 1000.
Proof.
  vm_compute. repeat split. discriminate.
Qed.

(** ** Input handling *)

Lemma keypress_calls_app (a b : list Event) :
  keypress_calls (a ++ b) = (keypress_calls a + keypress_calls b)%nat.
Proof.
  induction a as [|ev a IH]; simpl; [reflexivity|].
  destruct ev; simpl; rewrite IH; reflexivity.
Qed.

Ltac split_if :=
  match goal with
  | |- context [if ?b then _ else _] => destruct b
  | |- context [match ?o with Some _ => _ | None => _ end] => destruct o
  end.

(** [handle_keypress_] logs exactly one entry and leaves the dedupe record,
    the pending acknowledgement, the tamper state and the command in flight
    alone. *)
Lemma handle_keypress_frame (key_name : string) (tamper : bool)
  (s : St) (e : Env) :
  let r := handle_keypress_ key_name tamper s e in
  keypress_calls (trace (env_of r)) = S (keypress_calls (trace e))
  /\ last_key_name_ (st_of r) = last_key_name_ s
  /\ last_key_tamper_ (st_of r) = last_key_tamper_ s
  /\ last_key_ts_ (st_of r) = last_key_ts_ s
  /\ key_ack_pending_ (st_of r) = key_ack_pending_ s
  /\ ack_pending_code_ (st_of r) = ack_pending_code_ s
  /\ last_cmd_ (st_of r) = last_cmd_ s
  /\ in_tamper_ (st_of r) = in_tamper_ s.
Proof.
  destruct s, e. unfold handle_keypress_, bump_backlight_. unfold_m.
  cbn -[String.eqb isdigit Ascii.eqb Nat.eqb wrap32 add32].
  repeat (split_if;
          cbn -[String.eqb isdigit Ascii.eqb Nat.eqb wrap32 add32]).
  all: rewrite ?keypress_calls_app; cbn; repeat split; lia.
Qed.

(** C9. An accepted ENT keypress always leaves the input buffer empty and the
    screen dirty.  With a non-empty buffer and a sink configured it publishes
    the buffered string and registers the 200 ms timeout [clear_rx_sens],
    whose callback publishes the empty string; with an empty buffer (or no
    sink) it publishes nothing and registers nothing. *)
Theorem handle_keypress_ENT_submits (tamper : bool) (s : St) (e : Env) :
  let r := handle_keypress_ "ENT" tamper s e in
  let buf := input_buffer_ s in
  screen_dirty_ (st_of r) = true
  /\ input_buffer_ (st_of r) = EmptyString
  /\ rx_sens_ (st_of r) = rx_sens_ s
  /\ trace (env_of r)
     = trace e
       ++ EvKeypress "ENT" tamper
          :: (if str_empty buf then []
              else match rx_sens_ s with
                   | Some p =>
                       [EvPublish p buf;
                        EvSetTimeout "clear_rx_sens" 200 ClearRxSens]
                   | None => []
                   end)
  /\ (forall s' e',
         trace (env_of (run_callback ClearRxSens s' e'))
         = trace e'
           ++ match rx_sens_ s' with
              | Some p => [EvPublish p EmptyString]
              | None => []
              end).
Proof.
  cbv zeta. repeat split.
  1-4: destruct s as [? ? ? buf sens ? ? ? ? ? ? ? ? ? ? ? ? on
                      ? ? ? ? ? ? ? ? ? ? ? ? ? ? ? ? ? ?], e;
    unfold handle_keypress_, bump_backlight_; unfold_m;
    cbn -[wrap32 add32];
    destruct on, buf, sens; cbn -[wrap32 add32];
    rewrite <- ?app_assoc; reflexivity.
  intros s' e'. destruct s', e'. unfold run_callback. unfold_m. cbn.
  split_if; cbn; [reflexivity | now rewrite app_nil_r].
Qed.

(** A well-formed key event after an activity poll: the acknowledgement is
    armed whatever happens, and the event reaches [handle_keypress_] exactly
    when it is not suppressed. *)
Lemma handle_reply_key_event (code : Z) (s : St) (e : Env) :
  last_cmd_ s = CMD_ACTIVITY_19 ->
  code <> 0x7F ->
  let r := handle_reply_for_cmd_ (key_event code) s e in
  let d := decode_key_and_tamper_ code in
  let now_ms := second_millis e in
  (needs_button_ack_ (st_of r) = true
   /\ screen_dirty_ (st_of r) = true
   /\ key_ack_pending_ (st_of r) = true
   /\ ack_pending_code_ (st_of r) = code
   /\ last_cmd_ (st_of r) = CMD_ACTIVITY_19)
  /\ (if key_suppressed code now_ms s
      then trace (env_of r) = trace e
           /\ input_buffer_ (st_of r) = input_buffer_ s
           /\ last_key_name_ (st_of r) = last_key_name_ s
           /\ last_key_tamper_ (st_of r) = last_key_tamper_ s
           /\ last_key_ts_ (st_of r) = last_key_ts_ s
      else keypress_calls (trace (env_of r)) = S (keypress_calls (trace e))
           /\ last_key_name_ (st_of r) = fst d
           /\ last_key_tamper_ (st_of r) = snd d
           /\ last_key_ts_ (st_of r) = now_ms).
Proof.
  intros Hcmd Hne.
  destruct (decode_label_in_table code Hne) as [Hin _].
  apply key_labels_nonempty in Hin.
  unfold key_suppressed, second_millis, handle_reply_for_cmd_, key_event.
  cbv zeta.
  destruct (decode_key_and_tamper_ code) as [key tamper] eqn:Hd.
  cbn [fst snd] in *.
  destruct s, e. cbn [last_cmd_] in Hcmd. subst.
  unfold update_tamper_state_. unfold_m.
  rewrite Z.eqb_refl.
  destruct panel_online_0;
    cbn -[galaxy_checksum decode_key_and_tamper_ handle_keypress_ wrap32
          sub32 String.eqb];
    rewrite Z.eqb_refl, Hd; cbn [fst snd]; rewrite Hin;
    cbn -[handle_keypress_ wrap32 sub32 String.eqb];
    destruct (Bool.eqb tamper in_tamper_0);
    cbn -[handle_keypress_ wrap32 sub32 String.eqb];
    rewrite <- negb_orb;
    match goal with
    | |- context [negb ?b] => destruct b
    end;
    cbn -[handle_keypress_ wrap32 sub32 String.eqb].
  all: try (repeat split; reflexivity).
  all: match goal with
       | |- context [handle_keypress_ ?k ?t ?S ?E] =>
           pose proof (handle_keypress_frame k t S E) as HF; cbv zeta in HF;
           destruct (handle_keypress_ k t S E) as [[u s'] e']
       end;
       destruct s', e'; cbn in *; intuition congruence.
Qed.

Lemma tamper_only_sentinel (code : Z) :
  tamper_only_of (decode_key_and_tamper_ code) = false -> code <> 0x7F.
Proof. intros H ->. vm_compute in H. discriminate. Qed.

(** C6. A well-formed F4 key event after an activity poll that is not
    tamper-only always sets [needs_button_ack_], [screen_dirty_] and
    [key_ack_pending_] and records its code in [ack_pending_code_], whether or
    not it is a duplicate; and when an acknowledgement for the same raw code
    was already pending, [handle_keypress_] is not entered (the trace and the
    input buffer are unchanged). *)
Theorem key_event_ack_gating (code : Z) (s : St) (e : Env) :
  last_cmd_ s = CMD_ACTIVITY_19 ->
  tamper_only_of (decode_key_and_tamper_ code) = false ->
  let r := handle_reply_for_cmd_ (key_event code) s e in
  needs_button_ack_ (st_of r) = true
  /\ screen_dirty_ (st_of r) = true
  /\ key_ack_pending_ (st_of r) = true
  /\ ack_pending_code_ (st_of r) = code
  /\ (if key_ack_pending_ s && (code =? ack_pending_code_ s)
      then trace (env_of r) = trace e
           /\ keypress_calls (trace (env_of r)) = keypress_calls (trace e)
           /\ input_buffer_ (st_of r) = input_buffer_ s
      else True).
Proof.
  intros Hcmd Hto. apply tamper_only_sentinel in Hto.
  pose proof (handle_reply_key_event code s e Hcmd Hto) as H.
  cbv zeta in H |- *. destruct H as [(Hn & Hd & Hp & Hc & _) Hsup].
  repeat (split; [assumption|]).
  unfold key_suppressed in Hsup.
  destruct (key_ack_pending_ s && (code =? ack_pending_code_ s));
    [|exact I].
  rewrite orb_true_r in Hsup. destruct Hsup as (Htr & Hbuf & _).
  rewrite Htr. repeat split; assumption.
Qed.

Lemma key_event_ack_gating_witness :
  let s := set_ack_pending_code_ 0x01
             (set_key_ack_pending_ true
                (set_last_cmd_ CMD_ACTIVITY_19 St_init)) in
  let r := handle_reply_for_cmd_ (key_event 0x01) s (env_at 1000 []) in
  needs_button_ack_ (st_of r) = true
  /\ screen_dirty_ (st_of r) = true
  /\ key_ack_pending_ (st_of r) = true
  /\ ack_pending_code_ (st_of r) = 0x01
  /\ (if key_ack_pending_ s && (0x01 =? ack_pending_code_ s)
      then trace (env_of r) = trace (env_at 1000 [])
           /\ keypress_calls (trace (env_of r))
              = keypress_calls (trace (env_at 1000 []))
           /\ input_buffer_ (st_of r) = input_buffer_ s
      else True).
Proof.
  apply (key_event_ack_gating 0x01
           (set_ack_pending_code_ 0x01
              (set_key_ack_pending_ true
                 (set_last_cmd_ CMD_ACTIVITY_19 St_init)))
           (env_at 1000 [])); reflexivity.
Defined.

(** C3 (as the code has it).  Take a key event after an activity poll that is
    forwarded to [handle_keypress_], and a later key event after an activity
    poll that decodes to the same label and tamper and is handled while the
    dedupe record ([last_key_name_], [last_key_tamper_], [last_key_ts_]) is
    still the one the first event left, that is, no other key event was
    forwarded in between.  The second is forwarded exactly when more than the
    dedupe window has elapsed since the first and no acknowledgement for its
    raw code is pending at that moment.  The first event leaves an
    acknowledgement for its own raw code pending; as long as
    [key_ack_pending_] and [ack_pending_code_] are as it left them, a repeat
    of the same raw code is not forwarded, however late it comes. *)
Theorem key_dedupe_two_events
  (code1 code2 : Z) (s0 s1 : St) (e0 e1 : Env) :
  last_cmd_ s0 = CMD_ACTIVITY_19 ->
  code1 <> 0x7F ->
  decode_key_and_tamper_ code2 = decode_key_and_tamper_ code1 ->
  key_suppressed code1 (second_millis e0) s0 = false ->
  let r1 := handle_reply_for_cmd_ (key_event code1) s0 e0 in
  last_cmd_ s1 = CMD_ACTIVITY_19 ->
  last_key_name_ s1 = last_key_name_ (st_of r1) ->
  last_key_tamper_ s1 = last_key_tamper_ (st_of r1) ->
  last_key_ts_ s1 = last_key_ts_ (st_of r1) ->
  let r2 := handle_reply_for_cmd_ (key_event code2) s1 e1 in
  let elapsed := sub32 (second_millis e1) (second_millis e0) in
  let ack_pending := key_ack_pending_ s1 && (code2 =? ack_pending_code_ s1) in
  keypress_calls (trace (env_of r1)) = S (keypress_calls (trace e0))
  /\ key_ack_pending_ (st_of r1) = true
  /\ ack_pending_code_ (st_of r1) = code1
  /\ keypress_calls (trace (env_of r2))
     = (if (elapsed <=? KEY_DEDUPE_WINDOW_MS) || ack_pending
        then keypress_calls (trace e1)
        else S (keypress_calls (trace e1)))
  /\ (code2 = code1 ->
      key_ack_pending_ s1 = key_ack_pending_ (st_of r1) ->
      ack_pending_code_ s1 = ack_pending_code_ (st_of r1) ->
      keypress_calls (trace (env_of r2)) = keypress_calls (trace e1)).
Proof.
  intros Hcmd0 Hne1 Hdec Hfresh r1 Hcmd1 Hname Htam Hts r2 elapsed pending.
  pose proof (handle_reply_key_event code1 s0 e0 Hcmd0 Hne1) as H1.
  cbv zeta in H1. fold r1 in H1. rewrite Hfresh in H1.
  destruct H1 as [(_ & _ & Hp1 & Hc1 & _) (Hcalls1 & Hn1 & Ht1 & Hts1)].
  assert (Hne2 : code2 <> 0x7F).
  { intros ->. destruct (decode_label_in_table code1 Hne1) as [Hin _].
    apply key_labels_nonempty in Hin. rewrite <- Hdec in Hin.
    vm_compute in Hin. discriminate. }
  pose proof (handle_reply_key_event code2 s1 e1 Hcmd1 Hne2) as H2.
  cbv zeta in H2. fold r2 in H2. destruct H2 as [_ H2].
  assert (Hsup : key_suppressed code2 (second_millis e1) s1
                 = (elapsed <=? KEY_DEDUPE_WINDOW_MS) || pending).
  { unfold key_suppressed. rewrite Hname, Htam, Hts, Hn1, Ht1, Hts1, Hdec.
    rewrite String.eqb_refl, Bool.eqb_reflx. reflexivity. }
  rewrite Hsup in H2.
  repeat (split; [assumption|]).
  split.
  - destruct ((elapsed <=? KEY_DEDUPE_WINDOW_MS) || pending).
    + destruct H2 as [Htr _]. now rewrite Htr.
    + now destruct H2.
  - intros Hcode Hp Hc.
    assert (Hpend : pending = true).
    { unfold pending. rewrite Hp, Hp1, Hc, Hc1, Hcode. apply Z.eqb_refl. }
    rewrite Hpend, orb_true_r in H2. destruct H2 as [Htr _]. now rewrite Htr.
Qed.

(** Two presses of the same key 1000 ms apart.  In between the keypad
    confirms the screen frame that carried the acknowledgement ([F4 7F] in
    reply to a screen update), and the next activity poll goes out: both
    presses reach [handle_keypress_]. *)
Lemma key_dedupe_two_events_witness :
  let s0 := set_last_cmd_ CMD_ACTIVITY_19 St_init in
  let r1 := handle_reply_for_cmd_ (key_event 0x01) s0 (env_at 1000 []) in
  let rA := handle_reply_for_cmd_ (key_event 0x7F)
              (set_last_cmd_ CMD_SCREEN_07 (st_of r1)) (env_at 1500 []) in
  let s1 := set_last_cmd_ CMD_ACTIVITY_19 (st_of rA) in
  let r2 := handle_reply_for_cmd_ (key_event 0x01) s1 (env_at 2000 []) in
  keypress_calls (trace (env_of r1)) = 1%nat
  /\ key_ack_pending_ (st_of r1) = true
  /\ ack_pending_code_ (st_of r1) = 0x01
  /\ key_ack_pending_ s1 = false
  /\ keypress_calls (trace (env_of r2)) = 1%nat.
Proof.
  cbv zeta.
  destruct (key_dedupe_two_events 0x01 0x01
              (set_last_cmd_ CMD_ACTIVITY_19 St_init)
              (set_last_cmd_ CMD_ACTIVITY_19
                 (st_of (handle_reply_for_cmd_ (key_event 0x7F)
                           (set_last_cmd_ CMD_SCREEN_07
                              (st_of (handle_reply_for_cmd_ (key_event 0x01)
                                        (set_last_cmd_ CMD_ACTIVITY_19
                                           St_init)
                                        (env_at 1000 []))))
                           (env_at 1500 []))))
              (env_at 1000 []) (env_at 2000 [])
              eq_refl ltac:(discriminate) eq_refl eq_refl
              eq_refl eq_refl eq_refl eq_refl)
    as (H1 & H2 & H3 & H4 & _).
  split; [exact H1|]. split; [exact H2|]. split; [exact H3|].
  split; [reflexivity | exact H4].
Defined.

(** C3, as stated, fails: the same key event [11 F4 01 cs] received at 1000 ms
    and again at 2000 ms, far beyond the 100 ms window, with the
    acknowledgement of the first still pending, enters [handle_keypress_]
    once, not twice. *)
Lemma key_repeat_beyond_window_suppressed :
  let s0 := set_last_cmd_ CMD_ACTIVITY_19 St_init in
  let r1 := handle_reply_for_cmd_ (key_event 0x01) s0 (env_at 1000 []) in
  let e1 := Build_Env (fun _ => 2000) 0 [] (trace (env_of r1)) in
  let r2 := handle_reply_for_cmd_ (key_event 0x01) (st_of r1) e1 in
  decode_key_and_tamper_ 0x01 = ("1"%string, false)
  /\ KEY_DEDUPE_WINDOW_MS < sub32 (second_millis e1)
                              (second_millis (env_at 1000 []))
  /\ keypress_calls (trace (env_of r1)) = 1%nat
  /\ keypress_calls (trace (env_of r2)) = 1%nat.
Proof.
  vm_compute. repeat split.
Qed.

(** ** Display model *)

Lemma apply_inputs_toggles (c : ScreenInputs) (s : St) :
  screen_seq_flag_ (apply_inputs c s) = screen_seq_flag_ s
  /\ ack_toggle_ (apply_inputs c s) = ack_toggle_ s
  /\ needs_button_ack_ (apply_inputs c s) = si_owe_ack c.
Proof. destruct s; repeat split. Qed.

(** One call: the sequence bit of the modifier is the complement of the
    stored one, the acknowledgement toggle moves exactly when an
    acknowledgement was owed, and the toggles stay within their values. *)
Lemma build_screen_frame_step (s : St) (e : Env) :
  toggles_ok s ->
  let r := build_screen_frame_ s e in
  Z.testbit (modifier_of (val_of r)) 7
  = negb (Z.testbit (screen_seq_flag_ s) 7)
  /\ Z.testbit (screen_seq_flag_ (st_of r)) 7
     = negb (Z.testbit (screen_seq_flag_ s) 7)
  /\ Z.testbit (ack_toggle_ (st_of r)) 1
     = xorb (Z.testbit (ack_toggle_ s) 1) (needs_button_ack_ s)
  /\ needs_button_ack_ (st_of r) = false
  /\ toggles_ok (st_of r).
Proof.
  unfold toggles_ok. destruct s, e. cbn [screen_seq_flag_ ack_toggle_].
  intros [[-> | ->] [-> | ->]]; destruct needs_button_ack_0;
    unfold build_screen_frame_; unfold_m; cbn; repeat split; auto.
Qed.

Lemma build_screens_cons (c : ScreenInputs) (cs : list ScreenInputs)
  (s : St) (e : Env) :
  let s1 := apply_inputs c s in
  let r := build_screen_frame_ s1 e in
  val_of (build_screens (c :: cs) s e)
  = Build_ScreenCall s1 (val_of r) (st_of r)
      :: val_of (build_screens cs (st_of r) (env_of r)).
Proof.
  cbn [build_screens]. unfold_m. cbv zeta.
  destruct (build_screen_frame_ (apply_inputs c s) e) as [[f s2] e2].
  cbn [fst snd].
  destruct (build_screens cs s2 e2) as [[calls s3] e3]. reflexivity.
Qed.

(** C4. In any run of consecutive [build_screen_frame_] calls, whatever the
    display lines, the typed input and the owed acknowledgement are before
    each call, bit 7 of the modifier byte of the [k]-th frame is the bit
    stored before the run flipped [k+1] times; and in each call bit 0x02 of
    the acknowledgement toggle flips exactly when an acknowledgement was owed,
    which the call then clears.  The run starts in a state satisfying
    [toggles_ok], which every reachable state does
    ([toggles_ok_reachable]). *)
Theorem build_screen_frame_toggles (cs : list ScreenInputs) :
  forall (s : St) (e : Env) (k : nat),
    toggles_ok s ->
    (k < List.length cs)%nat ->
    let call := nth k (val_of (build_screens cs s e)) ScreenCall_default in
    Z.testbit (modifier_of (sc_frame call)) 7
    = xorb (Z.testbit (screen_seq_flag_ s) 7) (Nat.even k)
    /\ Z.testbit (ack_toggle_ (sc_after call)) 1
       = xorb (Z.testbit (ack_toggle_ (sc_before call)) 1)
           (needs_button_ack_ (sc_before call))
    /\ needs_button_ack_ (sc_after call) = false.
Proof.
  induction cs as [|c cs IH]; intros s e k Hok Hk; [inversion Hk|].
  cbv zeta. rewrite build_screens_cons. cbv zeta.
  destruct (apply_inputs_toggles c s) as (Hseq & Hack & _).
  assert (Hok1 : toggles_ok (apply_inputs c s)).
  { unfold toggles_ok. now rewrite Hseq, Hack. }
  pose proof (build_screen_frame_step (apply_inputs c s) e Hok1) as Hstep.
  cbv zeta in Hstep. destruct Hstep as (Hm & Hs & Ha & Hn & Hok2).
  rewrite Hseq in Hm, Hs.
  destruct k as [|k].
  - cbn [nth sc_frame sc_before sc_after Nat.even].
    rewrite Hm, xorb_true_r. auto.
  - cbn [nth].
    specialize (IH _ (env_of (build_screen_frame_ (apply_inputs c s) e)) k
                  Hok2 ltac:(cbn in Hk; lia)).
    cbv zeta in IH. destruct IH as (IHm & IHa & IHn).
    rewrite IHm, Hs. repeat split; auto.
    rewrite Nat.even_succ, <- Nat.negb_even.
    destruct (Z.testbit (screen_seq_flag_ s) 7), (Nat.even k); reflexivity.
Qed.

Lemma build_screen_frame_toggles_witness :
  let cs := [Build_ScreenInputs "KITCHEN" "Disarmed" "" false;
             Build_ScreenInputs "KITCHEN" "Disarmed" "12" true;
             Build_ScreenInputs "KITCHEN" "Armed" "" false] in
  let call := nth 1 (val_of (build_screens cs St_init (env_at 0 [])))
                ScreenCall_default in
  Z.testbit (modifier_of (sc_frame call)) 7 = false
  /\ Z.testbit (ack_toggle_ (sc_after call)) 1
     = xorb (Z.testbit (ack_toggle_ (sc_before call)) 1)
         (needs_button_ack_ (sc_before call))
  /\ needs_button_ack_ (sc_after call) = false.
Proof.
  apply (build_screen_frame_toggles
           [Build_ScreenInputs "KITCHEN" "Disarmed" "" false;
            Build_ScreenInputs "KITCHEN" "Disarmed" "12" true;
            Build_ScreenInputs "KITCHEN" "Armed" "" false]
           St_init (env_at 0 []) 1%nat).
  - unfold toggles_ok. simpl. auto.
  - simpl. lia.
Defined.

(** ** Command scheduler *)

Ltac sched_cbn :=
  cbn -[frame_of wrap32 sub32 add32 Z.leb Z.ltb Z.eqb str_resize str_fill
        bytes_of_string Nat.min String.length Z.lor].

(** The idle branch of [loop] sends the frame of the first matching action
    of the priority list, and nothing when none matches. *)
Lemma loop_schedule_by_priority (now : Z) (s : St) (e : Env) :
  awaiting_reply_ s = false ->
  let r := loop_schedule_ now s e in
  match spec_priority now s with
  | Some a =>
      val_of r = match a with ForcedReinit => true | _ => false end
      /\ trace (env_of r)
         = trace e ++ [EvWrite (frame_of (action_payload a s e))]
      /\ uart_rx (env_of r) = uart_rx e
      /\ awaiting_reply_ (st_of r) = true
      /\ last_tx_time_ (st_of r) = now
      /\ last_cmd_ (st_of r) = action_cmd a
      /\ rx_buf_ (st_of r) = []
  | None => r = (false, s, e)
  end.
Proof.
  destruct s, e. cbn [awaiting_reply_]. intros ->.
  unfold loop_schedule_, loop_pick_, loop_switch_, spec_priority,
    action_payload, build_screen_frame_, bump_backlight_,
    INIT_POLL_SECOND_MS, INIT_POLL_INTERVAL_MS, ACTIVITY_POLL_INTERVAL_MS.
  unfold_m. sched_cbn.
  repeat (split_if; sched_cbn).
  all: try reflexivity; repeat split; reflexivity.
Qed.

Lemma read_all_app (fifo : list Z) :
  forall s, read_all fifo s = set_rx_buf_ (rx_buf_ s ++ fifo) s.
Proof.
  induction fifo as [|b fifo IH]; intros s.
  - destruct s; cbn. now rewrite app_nil_r.
  - cbn [read_all]. rewrite IH. destruct s; cbn.
    now rewrite <- app_assoc.
Qed.

Lemma sub32_diag (a : Z) : sub32 a a = 0.
Proof. unfold sub32. now rewrite Z.sub_diag. Qed.

(** The rest of a tick after a send (or with nothing in flight) interprets no
    reply: it only drains the UART and runs the backlight timeout. *)
Lemma loop_finish_quiet (now : Z) (s : St) (e : Env) :
  awaiting_reply_ s = false \/ last_tx_time_ s = now ->
  let r := loop_finish_ now s e in
  trace (env_of r) = trace e
  /\ awaiting_reply_ (st_of r) = awaiting_reply_ s
  /\ last_tx_time_ (st_of r) = last_tx_time_ s
  /\ last_cmd_ (st_of r) = last_cmd_ s
  /\ rx_buf_ (st_of r) = rx_buf_ s ++ uart_rx e.
Proof.
  intros Hq.
  assert (Hwin : awaiting_reply_ s
                 && (REPLY_WAIT_MS <=? sub32 now (last_tx_time_ s)) = false).
  { destruct Hq as [-> | ->]; [reflexivity|].
    rewrite sub32_diag. apply andb_false_r. }
  clear Hq. destruct s, e. cbn [awaiting_reply_ last_tx_time_] in Hwin.
  unfold loop_finish_, rx_accumulate_. unfold_m.
  rewrite read_all_app.
  cbn -[sub32 Z.leb REPLY_WAIT_MS]. rewrite Hwin.
  cbn -[Z.leb].
  repeat (split_if; cbn -[Z.leb]); repeat split; reflexivity.
Qed.

Lemma set_panel_online_sched (b : bool) (s : St) (e e' : Env) (now : Z) :
  spec_priority now (set_panel_online_ b s) = spec_priority now s
  /\ (forall a,
        action_payload a (set_panel_online_ b s) e' = action_payload a s e)
  /\ awaiting_reply_ (set_panel_online_ b s) = awaiting_reply_ s.
Proof.
  destruct s. repeat split.
  intros a. destruct a; try reflexivity.
  unfold action_payload, build_screen_frame_. unfold_m. sched_cbn.
  repeat (split_if; sched_cbn); reflexivity.
Qed.

Lemma build_screen_frame_env (s : St) (e e' : Env) :
  val_of (build_screen_frame_ s e') = val_of (build_screen_frame_ s e).
Proof.
  destruct s. unfold build_screen_frame_. unfold_m. sched_cbn.
  repeat (split_if; sched_cbn); reflexivity.
Qed.

(** C1. On a tick that starts with no command awaiting a reply, [loop] writes
    at most one frame: the one of the first matching action in the order
    forced re-init, second init poll, screen update, periodic init poll, beep
    configuration, backlight command, activity poll; none if no action
    matches.  When it writes one, the idle branch leaves the receive buffer
    empty, and the tick ends with the awaiting-reply flag set, the transmit
    time equal to the tick's time, and the receive buffer holding only what
    was drained from the UART after the send (nothing on the re-init
    path). *)
Theorem loop_idle_tick_one_frame (s : St) (e : Env) :
  awaiting_reply_ s = false ->
  let now := next_millis e in
  let r := loop s e in
  match spec_priority now s with
  | Some a =>
      trace (env_of r)
      = trace e ++ [EvWrite (frame_of (action_payload a s e))]
      /\ awaiting_reply_ (st_of r) = true
      /\ last_tx_time_ (st_of r) = now
      /\ last_cmd_ (st_of r) = action_cmd a
      /\ rx_buf_ (st_of r)
         = match a with ForcedReinit => [] | _ => uart_rx e end
      /\ rx_buf_ (st_of (loop_schedule_ now s e)) = []
  | None =>
      trace (env_of r) = trace e
      /\ awaiting_reply_ (st_of r) = false
  end.
Proof.
  intros Hidle. destruct e as [clk n fifo tr].
  unfold next_millis. cbn [clock reads]. cbv zeta.
  set (now := wrap32 (clk n)).
  pose proof (loop_schedule_by_priority now s (Build_Env clk n fifo tr) Hidle)
    as HB.
  cbv zeta in HB.
  set (e0 := Build_Env clk (S n) fifo tr).
  set (c := panel_online_ s
            && (PANEL_OFFLINE_TIMEOUT_MS <? sub32 now (last_panel_rx_ms_ s))).
  set (s0 := if c then set_panel_online_ false s else s).
  assert (Hloop : loop s (Build_Env clk n fifo tr)
                  = let '(returned, s1, e1) := loop_schedule_ now s0 e0 in
                    if returned then (tt, s1, e1)
                    else loop_finish_ now s1 e1).
  { unfold loop. do 2 unfold_m. cbn [clock reads]. fold now. fold c.
    subst s0. unfold e0.
    destruct c; cbn [fst snd];
      match goal with
      | |- context [loop_schedule_ ?t ?x ?y] =>
          destruct (loop_schedule_ t x y) as [[[] s1] e1]
      end; reflexivity. }
  rewrite Hloop. clear Hloop.
  assert (Hs0 : spec_priority now s0 = spec_priority now s
                /\ (forall a, action_payload a s0 e0
                              = action_payload a s (Build_Env clk n fifo tr))
                /\ awaiting_reply_ s0 = awaiting_reply_ s).
  { subst s0. destruct c; [apply set_panel_online_sched|].
    repeat split. intros a. destruct a; try reflexivity.
    apply build_screen_frame_env. }
  destruct Hs0 as (Hprio & Hpay & Haw0). rewrite Hidle in Haw0.
  pose proof (loop_schedule_by_priority now s0 e0 Haw0) as HA.
  cbv zeta in HA. rewrite Hprio in HA.
  destruct (spec_priority now s) as [a|].
  - destruct HA as (Hval & Htr & Hrx & Haw & Htx & Hcmd & Hbuf).
    destruct HB as (_ & _ & _ & _ & _ & _ & HBbuf).
    rewrite Hpay in Htr.
    destruct (loop_schedule_ now s0 e0) as [[returned s1] e1].
    unfold val_of, st_of, env_of in *. cbn [fst snd] in *. subst returned.
    assert (Hq := loop_finish_quiet now s1 e1 (or_intror Htx)).
    cbv zeta in Hq. unfold st_of, env_of in Hq.
    destruct Hq as (Qtr & Qaw & Qtx & Qcmd & Qbuf).
    rewrite Hbuf, Hrx in Qbuf. cbn [app] in Qbuf.
    destruct a; cbn [fst snd];
      try (rewrite Qtr, Qaw, Qtx, Qcmd, Qbuf); repeat split; assumption.
  - clear HB. rewrite HA.
    assert (Hq := loop_finish_quiet now s0 e0 (or_introl Haw0)).
    cbv zeta in Hq. destruct Hq as (Qtr & Qaw & _).
    rewrite Qtr, Qaw. split; [reflexivity | assumption].
Qed.

Lemma loop_idle_tick_one_frame_witness :
  let s := set_last_init_poll_ 5000
             (set_beep_set_ true
                (set_screen_dirty_ false
                   (set_sent_second_init_ true St_init))) in
  let r := loop s (env_at 5150 [0x11; 0xFE]) in
  trace (env_of r) = [EvWrite [0x20; 0x19; 0x01; 0xE4]]
  /\ awaiting_reply_ (st_of r) = true
  /\ last_tx_time_ (st_of r) = 5150
  /\ last_cmd_ (st_of r) = CMD_ACTIVITY_19
  /\ rx_buf_ (st_of r) = [0x11; 0xFE]
  /\ rx_buf_ (st_of (loop_schedule_ 5150 s (env_at 5150 [0x11; 0xFE]))) = [].
Proof.
  exact (loop_idle_tick_one_frame
           (set_last_init_poll_ 5000
              (set_beep_set_ true
                 (set_screen_dirty_ false
                    (set_sent_second_init_ true St_init))))
           (env_at 5150 [0x11; 0xFE]) eq_refl).
Defined.

(** ** Rejected screen frame *)

(** The reply [addr F2 ...] to a screen update: link refresh, then the two
    flags; nothing else. *)
Lemma handle_reply_f2 (rest : list Z) (s : St) (e : Env) :
  last_cmd_ s = CMD_SCREEN_07 ->
  handle_reply_for_cmd_ (KEYPAD_ADDR :: 0xF2 :: rest) s e
  = (tt,
     set_screen_dirty_ true
       (set_need_reinit_after_f2_ true (link_refresh (next_millis e) s)),
     Build_Env (clock e) (S (reads e)) (uart_rx e) (trace e)).
Proof.
  destruct s, e. cbn [last_cmd_]. intros ->.
  unfold handle_reply_for_cmd_, link_refresh, next_millis. unfold_m.
  cbn -[wrap32]. destruct panel_online_0; reflexivity.
Qed.

(** A tick that starts idle with the forced-re-init flag set. *)
Lemma loop_forced_reinit (s : St) (e : Env) :
  awaiting_reply_ s = false ->
  need_reinit_after_f2_ s = true ->
  let r := loop s e in
  trace (env_of r) = trace e ++ [EvWrite (frame_of [device_id_ s; 0x00; 0x0F])]
  /\ last_cmd_ (st_of r) = CMD_POLL_00
  /\ ack_toggle_ (st_of r) = 0x02
  /\ screen_seq_flag_ (st_of r) = 0x00
  /\ need_reinit_after_f2_ (st_of r) = false
  /\ screen_dirty_ (st_of r) = true
  /\ awaiting_reply_ (st_of r) = true.
Proof.
  destruct s, e. cbn [awaiting_reply_ need_reinit_after_f2_].
  intros -> ->. unfold loop, loop_schedule_. do 2 unfold_m.
  cbn -[wrap32 sub32 Z.ltb frame_of].
  split_if; cbn -[frame_of]; repeat split; reflexivity.
Qed.

(** The tick on which the reply [addr F2 ...] to a screen update is
    interpreted. *)
Lemma loop_f2_tick (rest : list Z) (s : St) (e : Env) :
  last_cmd_ s = CMD_SCREEN_07 ->
  awaiting_reply_ s = true ->
  rx_buf_ s ++ uart_rx e = KEYPAD_ADDR :: 0xF2 :: rest ->
  REPLY_WAIT_MS <= sub32 (next_millis e) (last_tx_time_ s) ->
  let r := loop s e in
  need_reinit_after_f2_ (st_of r) = true
  /\ screen_dirty_ (st_of r) = true
  /\ awaiting_reply_ (st_of r) = false
  /\ key_ack_pending_ (st_of r) = key_ack_pending_ s
  /\ ack_pending_code_ (st_of r) = ack_pending_code_ s
  /\ device_id_ (st_of r) = device_id_ s
  /\ trace (env_of r) = trace e.
Proof.
  destruct s, e. unfold next_millis.
  cbn [last_cmd_ awaiting_reply_ rx_buf_ uart_rx last_tx_time_ clock reads].
  intros -> -> Hbuf Hwin. apply Z.leb_le in Hwin.
  unfold loop, loop_schedule_, loop_finish_, rx_accumulate_. do 2 unfold_m.
  cbn -[wrap32 sub32 Z.ltb Z.leb handle_reply_for_cmd_ REPLY_WAIT_MS
        read_all].
  split_if;
    cbn -[wrap32 sub32 Z.ltb Z.leb handle_reply_for_cmd_ REPLY_WAIT_MS
          read_all];
    rewrite read_all_app;
    cbn -[wrap32 sub32 Z.ltb Z.leb handle_reply_for_cmd_ REPLY_WAIT_MS];
    rewrite Hwin, Hbuf;
    cbn -[wrap32 sub32 Z.ltb Z.leb handle_reply_for_cmd_];
    rewrite handle_reply_f2 by reflexivity;
    unfold link_refresh; cbn -[wrap32 Z.leb];
    repeat (split_if; cbn -[wrap32 Z.leb]); repeat split; reflexivity.
Qed.

(** C5. A reply [addr F2 ...] interpreted while the last command is a screen
    update sets [need_reinit_after_f2_] and [screen_dirty_], leaves
    [key_ack_pending_] and [ack_pending_code_] as they were and sends
    nothing; the tick that interprets it ends idle, and the next tick sends
    exactly the init poll [dev 00 0F], resets the acknowledgement toggle to
    0x02 and the sequence flag to 0x00, clears the flag and leaves the screen
    dirty: no screen frame is sent before the init poll. *)
Theorem f2_after_screen_forces_reinit
  (rest : list Z) (s : St) (e e1 e2 : Env) :
  last_cmd_ s = CMD_SCREEN_07 ->
  awaiting_reply_ s = true ->
  rx_buf_ s ++ uart_rx e1 = KEYPAD_ADDR :: 0xF2 :: rest ->
  REPLY_WAIT_MS <= sub32 (next_millis e1) (last_tx_time_ s) ->
  let h := handle_reply_for_cmd_ (KEYPAD_ADDR :: 0xF2 :: rest) s e in
  let r1 := loop s e1 in
  let r2 := loop (st_of r1) e2 in
  (need_reinit_after_f2_ (st_of h) = true
   /\ screen_dirty_ (st_of h) = true
   /\ key_ack_pending_ (st_of h) = key_ack_pending_ s
   /\ ack_pending_code_ (st_of h) = ack_pending_code_ s
   /\ trace (env_of h) = trace e)
  /\ (need_reinit_after_f2_ (st_of r1) = true
      /\ screen_dirty_ (st_of r1) = true
      /\ awaiting_reply_ (st_of r1) = false
      /\ key_ack_pending_ (st_of r1) = key_ack_pending_ s
      /\ ack_pending_code_ (st_of r1) = ack_pending_code_ s
      /\ trace (env_of r1) = trace e1)
  /\ (trace (env_of r2)
      = trace e2 ++ [EvWrite (frame_of [device_id_ s; 0x00; 0x0F])]
      /\ last_cmd_ (st_of r2) = CMD_POLL_00
      /\ ack_toggle_ (st_of r2) = 0x02
      /\ screen_seq_flag_ (st_of r2) = 0x00
      /\ need_reinit_after_f2_ (st_of r2) = false
      /\ screen_dirty_ (st_of r2) = true
      /\ awaiting_reply_ (st_of r2) = true).
Proof.
  intros Hcmd Haw Hbuf Hwin h r1 r2.
  split; [|split].
  - subst h. rewrite (handle_reply_f2 rest s e Hcmd).
    unfold link_refresh. destruct s, e. cbn.
    destruct panel_online_0; repeat split.
  - pose proof (loop_f2_tick rest s e1 Hcmd Haw Hbuf Hwin) as H1.
    cbv zeta in H1. fold r1 in H1. tauto.
  - pose proof (loop_f2_tick rest s e1 Hcmd Haw Hbuf Hwin) as H1.
    cbv zeta in H1. fold r1 in H1.
    destruct H1 as (Hre & _ & Hidle & _ & _ & Hdev & _).
    pose proof (loop_forced_reinit (st_of r1) e2 Hidle Hre) as H2.
    cbv zeta in H2. fold r2 in H2. rewrite Hdev in H2. exact H2.
Qed.

Lemma f2_after_screen_forces_reinit_witness :
  let s := set_ack_pending_code_ 0x01
             (set_key_ack_pending_ true
                (set_last_tx_time_ 6000
                   (set_awaiting_reply_ true
                      (set_last_cmd_ CMD_SCREEN_07
                         (set_sent_second_init_ true St_init))))) in
  let h := handle_reply_for_cmd_ (KEYPAD_ADDR :: 0xF2 :: [])
             s (env_at 6100 []) in
  let r1 := loop s (env_at 6100 [0x11; 0xF2]) in
  let r2 := loop (st_of r1) (env_at 6110 []) in
  (need_reinit_after_f2_ (st_of h) = true
   /\ screen_dirty_ (st_of h) = true
   /\ key_ack_pending_ (st_of h) = true
   /\ ack_pending_code_ (st_of h) = 0x01
   /\ trace (env_of h) = [])
  /\ (need_reinit_after_f2_ (st_of r1) = true
      /\ screen_dirty_ (st_of r1) = true
      /\ awaiting_reply_ (st_of r1) = false
      /\ key_ack_pending_ (st_of r1) = true
      /\ ack_pending_code_ (st_of r1) = 0x01
      /\ trace (env_of r1) = [])
  /\ (trace (env_of r2) = [EvWrite [0x20; 0x00; 0x0F; 0xD9]]
      /\ last_cmd_ (st_of r2) = CMD_POLL_00
      /\ ack_toggle_ (st_of r2) = 0x02
      /\ screen_seq_flag_ (st_of r2) = 0x00
      /\ need_reinit_after_f2_ (st_of r2) = false
      /\ screen_dirty_ (st_of r2) = true
      /\ awaiting_reply_ (st_of r2) = true).
Proof.
  apply (f2_after_screen_forces_reinit []
           (set_ack_pending_code_ 0x01
              (set_key_ack_pending_ true
                 (set_last_tx_time_ 6000
                    (set_awaiting_reply_ true
                       (set_last_cmd_ CMD_SCREEN_07
                          (set_sent_second_init_ true St_init))))))
           (env_at 6100 []) (env_at 6100 [0x11; 0xF2]) (env_at 6110 [])).
  - reflexivity.
  - reflexivity.
  - reflexivity.
  - vm_compute. discriminate.
Defined.

(** ** The toggles stay within their values *)

Section Keeps.
Variable I : St -> Prop.

Lemma keeps_ret {A} (a : A) : keeps I (ret a).
Proof. intros s e H. exact H. Qed.

Lemma keeps_bind {A B} (m : M A) (k : A -> M B) :
  keeps I m -> (forall a, keeps I (k a)) -> keeps I (bind m k).
Proof.
  intros Hm Hk s e H. unfold bind. specialize (Hm s e H).
  destruct (m s e) as [[a s1] e1]. apply Hk. exact Hm.
Qed.

Lemma keeps_get : keeps I get.
Proof. intros s e H. exact H. Qed.

Lemma keeps_gets {A} (f : St -> A) : keeps I (gets f).
Proof. intros s e H. exact H. Qed.

Lemma keeps_millis : keeps I millis.
Proof. intros s [] H. exact H. Qed.

Lemma keeps_emit (ev : Event) : keeps I (emit ev).
Proof. intros s [] H. exact H. Qed.

Lemma keeps_modify (f : St -> St) :
  (forall s, I s -> I (f s)) -> keeps I (modify f).
Proof. intros Hf s e H. apply Hf, H. Qed.

Lemma keeps_when (b : bool) (m : M unit) : keeps I m -> keeps I (when b m).
Proof. intros Hm. destruct b; [exact Hm | apply keeps_ret]. Qed.
End Keeps.

Ltac toggle_setter :=
  let s := fresh "s" in
  let H := fresh "H" in
  intros s H; destruct s; unfold toggles_ok in *; cbn in *;
  repeat match goal with
         | |- context [if ?b then _ else _] => destruct b
         end;
  intuition auto.

Ltac keeps_step :=
  first
    [ apply keeps_ret | apply keeps_get | apply keeps_gets
    | apply keeps_millis | apply keeps_emit
    | apply keeps_bind; [|intros ?]
    | apply keeps_when
    | apply keeps_modify; solve [toggle_setter]
    | match goal with
      | |- keeps _ (if ?b then _ else _) => destruct b
      | |- keeps _ (match ?x with _ => _ end) => destruct x
      end ].

Lemma bump_backlight_keeps_toggles : keeps toggles_ok bump_backlight_.
Proof. unfold bump_backlight_. repeat keeps_step. Qed.

Lemma handle_keypress_keeps_toggles (key_name : string) (tamper : bool) :
  keeps toggles_ok (handle_keypress_ key_name tamper).
Proof.
  unfold handle_keypress_. cbv zeta.
  repeat first [apply bump_backlight_keeps_toggles | keeps_step].
Qed.

Lemma handle_reply_keeps_toggles (bytes : list Z) :
  keeps toggles_ok (handle_reply_for_cmd_ bytes).
Proof.
  unfold handle_reply_for_cmd_, update_tamper_state_. cbv zeta.
  repeat first [apply handle_keypress_keeps_toggles | keeps_step].
Qed.

Lemma build_screen_frame_keeps_toggles : keeps toggles_ok build_screen_frame_.
Proof. intros s e H. apply (build_screen_frame_step s e H). Qed.

Lemma rx_accumulate_keeps_toggles : keeps toggles_ok rx_accumulate_.
Proof.
  intros s [] H. unfold rx_accumulate_, st_of. cbn [fst snd].
  rewrite read_all_app. destruct s. exact H.
Qed.

Lemma loop_keeps_toggles : keeps toggles_ok loop.
Proof.
  unfold loop, loop_schedule_, loop_finish_, loop_pick_. cbv zeta.
  repeat first
    [ apply handle_reply_keeps_toggles
    | apply bump_backlight_keeps_toggles
    | apply build_screen_frame_keeps_toggles
    | apply rx_accumulate_keeps_toggles
    | progress unfold loop_switch_, send_frame
    | keeps_step ].
Qed.

Lemma setup_keeps_toggles : keeps toggles_ok setup.
Proof.
  unfold setup, parse_display_text_, send_frame.
  repeat keeps_step.
Qed.

Lemma control_surface_keeps_toggles (text : string) (b : bool) (p q : Z) :
  keeps toggles_ok (set_display_text text)
  /\ keeps toggles_ok (set_display_text_nobl text)
  /\ keeps toggles_ok (set_beep_enabled b p q).
Proof.
  unfold set_display_text, set_display_text_nobl, set_beep_enabled,
    parse_display_text_.
  split; [|split];
    repeat first [apply bump_backlight_keeps_toggles | keeps_step].
Qed.

Lemma uart_receive_keeps (I : St -> Prop) (bytes : list Z) :
  keeps I (uart_receive bytes).
Proof. intros s [] H. exact H. Qed.

Lemma run_ticks_keeps_toggles (arrivals : list (list Z)) :
  keeps toggles_ok (run_ticks arrivals).
Proof.
  induction arrivals as [|bytes arrivals IH]; cbn [run_ticks].
  - apply keeps_ret.
  - apply keeps_bind; [apply uart_receive_keeps | intros _].
    apply keeps_bind; [apply loop_keeps_toggles | intros _; exact IH].
Qed.

(** The bytes of a later tick do reach the driver.  Here the clock advances
    100 ms per reading and a key event arrives with the eleventh tick, in
    reply to the activity poll the tenth sent: the key is typed into the
    input buffer, and the screen frame of the twelfth tick acknowledges it,
    which moves the acknowledgement toggle from 0x02 to 0x00. *)
Example run_ticks_late_key :
  let e := Build_Env (fun n => 6000 + 100 * Z.of_nat n) 0 [] [] in
  let r := run_ticks (repeat [] 10 ++ [key_event 0x01; []])
             (st_of (setup St_init (env_at 0 []))) e in
  input_buffer_ (st_of r) = "1"%string
  /\ keypress_calls (trace (env_of r)) = 1%nat
  /\ last_cmd_ (st_of r) = CMD_SCREEN_07
  /\ ack_toggle_ (st_of r) = 0x00.
Proof. vm_compute. repeat split. Qed.

(** X25. Every state the driver reaches from its initial members by [setup] and
    any number of ticks satisfies [toggles_ok], whatever values the clock
    returns and whatever bytes reach the UART before each tick. *)
Lemma toggles_ok_reachable (arrivals : list (list Z)) (e e' : Env) :
  toggles_ok (st_of (run_ticks arrivals (st_of (setup St_init e)) e')).
Proof.
  apply run_ticks_keeps_toggles, setup_keeps_toggles.
  unfold toggles_ok. cbn. auto.
Qed.

(** * Further properties of the driver *)

(** ** Checksum: what it detects *)

Lemma sum_bytes_bound (l : list Z) :
  Forall is_byte l ->
  0 <= fold_right Z.add 0 l <= 255 * Z.of_nat (List.length l).
Proof.
  unfold is_byte. induction 1 as [|b l Hb _ IH]; cbn [fold_right List.length].
  - lia.
  - rewrite Nat2Z.inj_succ. lia.
Qed.

Lemma sum_bytes_app (a b : list Z) :
  fold_right Z.add 0 (a ++ b) = fold_right Z.add 0 a + fold_right Z.add 0 b.
Proof. induction a as [|x a IH]; cbn; [reflexivity | rewrite IH; lia]. Qed.

(** While the accumulator fits 16 bits only its two low bytes take part. *)
Lemma galaxy_checksum_small (data : list Z) :
  let acc := 0xAA + fold_right Z.add 0 data in
  0 <= acc < 65536 ->
  galaxy_checksum data = (acc / 256 + acc mod 256) mod 256.
Proof.
  intros acc Hacc. unfold galaxy_checksum.
  rewrite galaxy_checksum_fold_div.
  assert (Hfold : galaxy_checksum_acc data = acc).
  { unfold galaxy_checksum_acc.
    change (fold_left (fun temp b => add32 temp b) data 0xAA)
      with (fold_left (fun temp b => add32 temp b) data (wrap32 0xAA)).
    rewrite galaxy_checksum_acc_from. fold acc. unfold wrap32.
    apply Z.mod_small. lia. }
  rewrite Hfold.
  change (2 ^ 24) with 16777216. change (2 ^ 16) with 65536.
  change (2 ^ 8) with 256.
  rewrite (Z.div_small acc 16777216) by lia.
  rewrite (Z.div_small acc 65536) by lia.
  rewrite (Z.mod_small (acc / 256) 256)
    by (split; [apply Z.div_pos; lia | apply Z.div_lt_upper_bound; lia]).
  reflexivity.
Qed.

(** X1. For frames of fewer than 256 bytes the checksum notices every
    change of a single byte, unless the change turns 0x00 into 0xFF or
    back. *)
Theorem galaxy_checksum_detects_single_byte
  (pre post : list Z) (b b' : Z) :
  Forall is_byte pre -> Forall is_byte post ->
  is_byte b -> is_byte b' ->
  (List.length pre + List.length post < 255)%nat ->
  b <> b' ->
  Z.abs (b - b') <> 255 ->
  galaxy_checksum (pre ++ b :: post) <> galaxy_checksum (pre ++ b' :: post).
Proof.
  intros Hpre Hpost Hb Hb' Hlen Hne Habs.
  pose proof (sum_bytes_bound pre Hpre) as Bpre.
  pose proof (sum_bytes_bound post Hpost) as Bpost.
  unfold is_byte in Hb, Hb'.
  rewrite !galaxy_checksum_small
    by (cbv zeta; rewrite sum_bytes_app; cbn [fold_right]; lia).
  rewrite !sum_bytes_app. cbn [fold_right].
  set (base := fold_right Z.add 0 pre) in *.
  set (rest := fold_right Z.add 0 post) in *.
  assert (Hbase : 0 <= base + rest <= 255 * 254) by lia.
  clearbody base rest. clear - Hb Hb' Hne Habs Hbase.
  Z.div_mod_to_equations. lia.
Qed.

Lemma galaxy_checksum_detects_single_byte_witness :
  galaxy_checksum ([0x11; 0xF4] ++ 0x01 :: [])
  <> galaxy_checksum ([0x11; 0xF4] ++ 0x02 :: []).
Proof.
  apply (galaxy_checksum_detects_single_byte [0x11; 0xF4] [] 0x01 0x02).
  - repeat apply Forall_cons; try apply Forall_nil; unfold is_byte; lia.
  - constructor.
  - unfold is_byte. lia.
  - unfold is_byte. lia.
  - cbn. lia.
  - discriminate.
  - cbn. discriminate.
Defined.

(** X2. The bound on the difference is sharp: a byte 0x00 turned into 0xFF can go
    unnoticed. *)
Lemma galaxy_checksum_misses_00_FF (pre post : list Z) :
  Forall is_byte pre -> Forall is_byte post ->
  (List.length pre + List.length post < 255)%nat ->
  (0xAA + fold_right Z.add 0 pre + fold_right Z.add 0 post) mod 256 <> 0 ->
  galaxy_checksum (pre ++ 0x00 :: post) = galaxy_checksum (pre ++ 0xFF :: post).
Proof.
  intros Hpre Hpost Hlen Hlow.
  pose proof (sum_bytes_bound pre Hpre) as Bpre.
  pose proof (sum_bytes_bound post Hpost) as Bpost.
  rewrite !galaxy_checksum_small
    by (cbv zeta; rewrite sum_bytes_app; cbn [fold_right]; lia).
  rewrite !sum_bytes_app. cbn [fold_right].
  set (base := fold_right Z.add 0 pre) in *.
  set (rest := fold_right Z.add 0 post) in *.
  assert (Hbase : 0 <= base + rest <= 255 * 254) by lia.
  clearbody base rest. clear - Hlow Hbase.
  Z.div_mod_to_equations. lia.
Qed.

Lemma galaxy_checksum_misses_00_FF_witness :
  galaxy_checksum ([0x20; 0x0D] ++ 0x00 :: [])
  = galaxy_checksum ([0x20; 0x0D] ++ 0xFF :: []).
Proof.
  apply (galaxy_checksum_misses_00_FF [0x20; 0x0D] []).
  - repeat apply Forall_cons; try apply Forall_nil; unfold is_byte; lia.
  - constructor.
  - cbn. lia.
  - vm_compute. discriminate.
Defined.

(** ** Key decoder: what a code carries *)

(** X3. Apart from the sentinel, two codes decode alike exactly when they agree
    on the low nibble and on bit 6: bits 4, 5 and 7 are ignored, and no two
    nibbles share a label. *)
Theorem decode_key_and_tamper_same_iff (c1 c2 : Z) :
  c1 <> 0x7F -> c2 <> 0x7F ->
  (decode_key_and_tamper_ c1 = decode_key_and_tamper_ c2
   <-> Z.land c1 0x0F = Z.land c2 0x0F
       /\ (Z.land c1 0x40 =? 0) = (Z.land c2 0x40 =? 0)).
Proof.
  intros H1 H2. unfold decode_key_and_tamper_.
  apply Z.eqb_neq in H1, H2. rewrite H1, H2. cbv zeta.
  pose proof (low_nibble_cases c1) as K1.
  pose proof (low_nibble_cases c2) as K2. cbv zeta in K1, K2.
  set (k1 := Z.land c1 0x0F) in *. set (k2 := Z.land c2 0x0F) in *.
  set (t1 := Z.land c1 0x40 =? 0). set (t2 := Z.land c2 0x40 =? 0).
  clearbody k1 k2 t1 t2. split.
  - intros Heq.
    assert (Ht : t1 = t2).
    { assert (Hs : negb t1 = negb t2).
      { repeat (destruct K1 as [K1|K1]; [subst k1|]); try subst k1;
          repeat (destruct K2 as [K2|K2]; [subst k2|]); try subst k2;
          cbn in Heq; congruence. }
      destruct t1, t2; cbn in Hs; congruence. }
    split; [|exact Ht].
    repeat (destruct K1 as [K1|K1]; [subst k1|]); try subst k1;
      repeat (destruct K2 as [K2|K2]; [subst k2|]); try subst k2;
      cbn in Heq; try reflexivity; discriminate.
  - intros [-> ->]. reflexivity.
Qed.

Lemma decode_key_and_tamper_same_iff_witness :
  decode_key_and_tamper_ 0x01 = decode_key_and_tamper_ 0xB1
  <-> Z.land 0x01 0x0F = Z.land 0xB1 0x0F
      /\ (Z.land 0x01 0x40 =? 0) = (Z.land 0xB1 0x40 =? 0).
Proof.
  apply decode_key_and_tamper_same_iff; discriminate.
Defined.

(** ** Display model: text and frame layout *)

Lemma split_pipe_some (s a b : string) :
  split_pipe s = Some (a, b) ->
  s = (a ++ "|" ++ b)%string
  /\ ~ In "|"%char (list_ascii_of_string a).
Proof.
  revert a b. induction s as [|c s IH]; intros a b; cbn [split_pipe].
  - discriminate.
  - destruct (Ascii.eqb_spec c "|"%char) as [->|Hc].
    + intros [= <- <-]. split; [reflexivity | intros []].
    + destruct (split_pipe s) as [[a' b']|]; [|discriminate].
      intros [= <- <-]. destruct (IH a' b' eq_refl) as [-> Hno].
      split; [reflexivity|].
      cbn. intros [Heq | Hin]; [congruence | exact (Hno Hin)].
Qed.

Lemma split_pipe_none (s : string) :
  split_pipe s = None -> ~ In "|"%char (list_ascii_of_string s).
Proof.
  induction s as [|c s IH]; cbn [split_pipe].
  - intros _ [].
  - destruct (Ascii.eqb_spec c "|"%char) as [->|Hc]; [discriminate|].
    destruct (split_pipe s) as [[a b]|]; [discriminate|].
    intros _. cbn. intros [Heq | Hin]; [congruence | exact (IH eq_refl Hin)].
Qed.

Lemma parse_display_text_splits (s : St) (e : Env) :
  let r := parse_display_text_ s e in
  display_text_ (st_of r) = display_text_ s
  /\ display_split_ok (st_of r)
  /\ env_of r = e.
Proof.
  unfold parse_display_text_, display_split_ok. unfold_m.
  destruct (split_pipe (display_text_ s)) as [[l1 l2]|] eqn:Hsp.
  - apply split_pipe_some in Hsp. destruct Hsp as [Htext Hno].
    destruct s; cbn in *. repeat split; auto.
  - apply split_pipe_none in Hsp.
    destruct s; cbn in *. repeat split; auto.
Qed.

(** X4. Both ways of setting the display text store the text (the start-up
    message for an empty one), split it at its first ['|'] and mark the
    screen dirty.  The variant without backlight touches no backlight member
    and does not read the clock. *)
Theorem set_display_text_splits (text : string) (s : St) (e : Env) :
  let shown :=
    if str_empty text then "ESP-HOME|Initializing"%string else text in
  let r := set_display_text text s e in
  let q := set_display_text_nobl text s e in
  (display_text_ (st_of r) = shown
   /\ display_split_ok (st_of r)
   /\ screen_dirty_ (st_of r) = true
   /\ backlight_off_at_ (st_of r)
      = add32 (next_millis e) (backlight_timeout_ms_ s))
  /\ (display_text_ (st_of q) = shown
      /\ display_split_ok (st_of q)
      /\ screen_dirty_ (st_of q) = true
      /\ backlight_off_at_ (st_of q) = backlight_off_at_ s
      /\ backlight_on_ (st_of q) = backlight_on_ s
      /\ backlight_cmd_pending_ (st_of q) = backlight_cmd_pending_ s
      /\ backlight_target_on_ (st_of q) = backlight_target_on_ s
      /\ env_of q = e).
Proof.
  cbv zeta.
  set (shown := if str_empty text then _ else _).
  set (s1 := set_display_text_ shown s).
  assert (Hs1 : (if str_empty text
                 then modify (set_display_text_ "ESP-HOME|Initializing")
                 else modify (set_display_text_ text)) s e = (tt, s1, e)).
  { subst s1 shown. destruct (str_empty text); reflexivity. }
  pose proof (parse_display_text_splits s1 e) as Hp. cbv zeta in Hp.
  assert (Htext1 : display_text_ s1 = shown) by (subst s1; destruct s; reflexivity).
  destruct (parse_display_text_ s1 e) as [[u s2] e2] eqn:Hparse.
  unfold st_of, env_of in Hp. cbn [fst snd] in Hp.
  destruct Hp as (Htext & Hsplit & ->). rewrite Htext1 in Htext.
  assert (Hbl : backlight_off_at_ s2 = backlight_off_at_ s
                /\ backlight_on_ s2 = backlight_on_ s
                /\ backlight_cmd_pending_ s2 = backlight_cmd_pending_ s
                /\ backlight_target_on_ s2 = backlight_target_on_ s
                /\ backlight_timeout_ms_ s2 = backlight_timeout_ms_ s).
  { revert Hparse. unfold parse_display_text_. unfold_m.
    subst s1. destruct s. cbn.
    destruct (split_pipe shown) as [[l1 l2]|]; intros [= <- <-];
      cbn; repeat split. }
  destruct Hbl as (B1 & B2 & B3 & B4 & B5).
  assert (Hr : set_display_text text s e
               = bump_backlight_ (set_screen_dirty_ true s2) e).
  { unfold set_display_text, bind at 1 2 3. rewrite Hs1, Hparse.
    reflexivity. }
  assert (Hq : set_display_text_nobl text s e
               = (tt, set_screen_dirty_ true s2, e)).
  { unfold set_display_text_nobl, bind at 1 2. rewrite Hs1, Hparse.
    reflexivity. }
  rewrite Hr, Hq. clear Hr Hq Hparse Hs1.
  split.
  - unfold bump_backlight_. unfold_m. unfold next_millis.
    rewrite <- B5. clear B1 B2 B3 B4 B5.
    destruct s2, e. cbn [fst snd clock reads backlight_timeout_ms_].
    cbn [backlight_on_ set_screen_dirty_ set_backlight_off_at_ negb].
    destruct backlight_on_0; cbn [fst snd];
      repeat match goal with |- _ /\ _ => split end;
      first [exact Htext | exact Hsplit | reflexivity].
  - unfold_m. cbn [fst snd].
    rewrite <- B1, <- B2, <- B3, <- B4. clear B1 B2 B3 B4 B5.
    destruct s2.
    repeat match goal with |- _ /\ _ => split end;
      first [exact Htext | exact Hsplit | reflexivity].
Qed.

Lemma list_ascii_length (s : string) :
  List.length (list_ascii_of_string s) = String.length s.
Proof. induction s as [|c s IH]; cbn; [reflexivity | now rewrite IH]. Qed.

Lemma str_resize_chars (n : nat) (pad : ascii) :
  forall l,
    list_ascii_of_string (str_resize n pad l)
    = firstn n (list_ascii_of_string l) ++ repeat pad (n - String.length l).
Proof.
  induction n as [|n IH]; intros l; [destruct l; reflexivity|].
  destruct l as [|c l]; cbn [str_resize list_ascii_of_string].
  - rewrite IH. cbn. rewrite firstn_nil, Nat.sub_0_r. reflexivity.
  - rewrite IH. reflexivity.
Qed.

Lemma str_fill_chars (n : nat) (c : ascii) :
  list_ascii_of_string (str_fill n c) = repeat c n.
Proof. induction n as [|n IH]; cbn; [reflexivity | now rewrite IH]. Qed.

Lemma bytes_of_resize (l : string) :
  bytes_of_string (str_resize 16 " "%char l) = pad16 (bytes_of_string l).
Proof.
  unfold bytes_of_string, pad16.
  rewrite str_resize_chars, map_app, firstn_map, map_repeat.
  rewrite length_map, list_ascii_length. reflexivity.
Qed.

Lemma bytes_of_fill (n : nat) :
  bytes_of_string (str_fill n "*"%char) = repeat 0x2A n.
Proof. unfold bytes_of_string. now rewrite str_fill_chars, map_repeat. Qed.

Lemma pad16_length (l : list Z) : List.length (pad16 l) = 16%nat.
Proof.
  unfold pad16. rewrite length_app, length_firstn, repeat_length. lia.
Qed.

Lemma pad16_mask (k : nat) :
  (k <= 16)%nat ->
  pad16 (repeat 0x2A k) = repeat 0x2A k ++ repeat 0x20 (16 - k).
Proof.
  intros Hk. unfold pad16. rewrite repeat_length.
  rewrite firstn_all2 by (rewrite repeat_length; exact Hk). reflexivity.
Qed.

(** X5. Every screen frame is 38 bytes: device id, 07, modifier, 17, line 1 cut
    or padded to 16 bytes, 02, line 2 likewise, 07.  While input is being
    typed line 2 carries only stars (one per typed character, at most 16) and
    spaces, never the characters themselves. *)
Theorem build_screen_frame_layout (s : St) (e : Env) :
  let frame := val_of (build_screen_frame_ s e) in
  let k := Nat.min (String.length (input_buffer_ s)) 16 in
  frame
  = [device_id_ s; 0x07; modifier_of frame; 0x17]
    ++ pad16 (bytes_of_string (display_line1_ s))
    ++ [0x02]
    ++ (if str_empty (input_buffer_ s)
        then pad16 (bytes_of_string (display_line2_ s))
        else repeat 0x2A k ++ repeat 0x20 (16 - k))
    ++ [0x07]
  /\ List.length frame = 38%nat.
Proof.
  cbv zeta.
  assert (Hframe :
    val_of (build_screen_frame_ s e)
    = [device_id_ s; 0x07; modifier_of (val_of (build_screen_frame_ s e));
       0x17]
      ++ pad16 (bytes_of_string (display_line1_ s))
      ++ [0x02]
      ++ (if str_empty (input_buffer_ s)
          then pad16 (bytes_of_string (display_line2_ s))
          else repeat 0x2A (Nat.min (String.length (input_buffer_ s)) 16)
               ++ repeat 0x20
                    (16 - Nat.min (String.length (input_buffer_ s)) 16))
      ++ [0x07]).
  { destruct s. unfold build_screen_frame_, modifier_of. unfold_m.
    cbn -[str_resize str_fill bytes_of_string pad16 repeat Nat.min
          String.length Z.lor Z.eqb Nat.sub].
    destruct needs_button_ack_0;
      cbn -[str_resize str_fill bytes_of_string pad16 repeat Nat.min
            String.length Z.lor Z.eqb Nat.sub];
      rewrite <- !app_assoc, !bytes_of_resize;
      (destruct (str_empty input_buffer_0);
       [reflexivity
       | rewrite bytes_of_fill, pad16_mask by apply Nat.le_min_r;
         reflexivity]). }
  split; [exact Hframe|].
  rewrite Hframe. cbn [app List.length].
  rewrite length_app, pad16_length. cbn [app List.length].
  destruct (str_empty (input_buffer_ s));
    rewrite length_app;
    [rewrite pad16_length
    |rewrite length_app, !repeat_length];
    cbn [List.length]; lia.
Qed.

(** X6. The modifier byte on the wire: bit 0, the new sequence bit, and, only
    when an acknowledgement is owed, the flag 0x10 with the acknowledgement
    toggle as it was before the call. *)
Theorem build_screen_frame_modifier (s : St) (e : Env) :
  toggles_ok s ->
  modifier_of (val_of (build_screen_frame_ s e))
  = 0x01
    + (if screen_seq_flag_ s =? 0x00 then 0x80 else 0x00)
    + (if needs_button_ack_ s then 0x10 + ack_toggle_ s else 0x00).
Proof.
  unfold toggles_ok. destruct s.
  cbn [screen_seq_flag_ ack_toggle_ needs_button_ack_].
  intros [[-> | ->] [-> | ->]]; destruct needs_button_ack_0;
    unfold build_screen_frame_; unfold_m; reflexivity.
Qed.

Lemma build_screen_frame_modifier_witness :
  modifier_of
    (val_of (build_screen_frame_ (set_needs_button_ack_ true St_init)
               (env_at 0 [])))
  = 0x93.
Proof.
  apply (build_screen_frame_modifier (set_needs_button_ack_ true St_init)
           (env_at 0 [])).
  unfold toggles_ok. cbn. auto.
Defined.

(** ** Reply interpreter: what it leaves alone *)

Lemma frames_written_app (a b : list Event) :
  frames_written (a ++ b) = frames_written a ++ frames_written b.
Proof.
  induction a as [|ev a IH]; cbn; [reflexivity|].
  destruct ev; cbn; rewrite IH; reflexivity.
Qed.

Lemma silent_ret {A} (a : A) : silent (ret a).
Proof. intros s e. reflexivity. Qed.

Lemma silent_bind {A B} (m : M A) (k : A -> M B) :
  silent m -> (forall a, silent (k a)) -> silent (bind m k).
Proof.
  intros Hm Hk s e. unfold bind. specialize (Hm s e).
  destruct (m s e) as [[a s1] e1]. rewrite <- Hm. apply Hk.
Qed.

Lemma silent_get : silent get.
Proof. intros s e. reflexivity. Qed.

Lemma silent_gets {A} (f : St -> A) : silent (gets f).
Proof. intros s e. reflexivity. Qed.

Lemma silent_modify (f : St -> St) : silent (modify f).
Proof. intros s e. reflexivity. Qed.

Lemma silent_millis : silent millis.
Proof. intros s []. reflexivity. Qed.

Lemma silent_when (b : bool) (m : M unit) : silent m -> silent (when b m).
Proof. intros Hm. destruct b; [exact Hm | apply silent_ret]. Qed.

Lemma silent_emit_publish (p : TextSensor) (st : string) :
  silent (emit (EvPublish p st)).
Proof.
  intros s []. unfold emit, env_of. cbn.
  rewrite frames_written_app. cbn. apply app_nil_r.
Qed.

Lemma silent_emit_timeout (name : string) (ms : Z) (cb : Callback) :
  silent (emit (EvSetTimeout name ms cb)).
Proof.
  intros s []. unfold emit, env_of. cbn.
  rewrite frames_written_app. cbn. apply app_nil_r.
Qed.

Lemma silent_emit_keypress (key_name : string) (tamper : bool) :
  silent (emit (EvKeypress key_name tamper)).
Proof.
  intros s []. unfold emit, env_of. cbn.
  rewrite frames_written_app. cbn. apply app_nil_r.
Qed.

Ltac silent_step :=
  first
    [ apply silent_ret | apply silent_get | apply silent_gets
    | apply silent_millis | apply silent_modify
    | apply silent_emit_publish | apply silent_emit_timeout
    | apply silent_emit_keypress
    | apply silent_bind; [|intros ?]
    | apply silent_when
    | match goal with
      | |- silent (if ?b then _ else _) => destruct b
      | |- silent (match ?x with _ => _ end) => destruct x
      end ].

Lemma handle_keypress_silent (key_name : string) (tamper : bool) :
  silent (handle_keypress_ key_name tamper).
Proof.
  unfold handle_keypress_, bump_backlight_. cbv zeta. repeat silent_step.
Qed.

Lemma handle_reply_silent (bytes : list Z) :
  silent (handle_reply_for_cmd_ bytes).
Proof.
  unfold handle_reply_for_cmd_, update_tamper_state_. cbv zeta.
  repeat first [apply handle_keypress_silent | silent_step].
Qed.

Lemma run_callback_silent (cb : Callback) : silent (run_callback cb).
Proof. unfold run_callback. repeat silent_step. Qed.

(** A setter of a member the predicate does not read keeps the predicate. *)
Ltac frame_setter :=
  let s := fresh "s" in
  let H := fresh "H" in
  intros s H; destruct s; exact H.

Ltac keeps_frame_step :=
  first
    [ apply keeps_ret | apply keeps_get | apply keeps_gets
    | apply keeps_millis | apply keeps_emit
    | apply keeps_bind; [|intros ?]
    | apply keeps_when
    | apply keeps_modify; solve [frame_setter]
    | match goal with
      | |- keeps _ (if ?b then _ else _) => destruct b
      | |- keeps _ (match ?x with _ => _ end) => destruct x
      end ].

(** The command slot as the scheduler left it. *)
Lemma handle_reply_keeps_slot (bytes : list Z) (c : LastCmd) (a : bool)
  (buf : list Z) (t : Z) (i : bool) (d : Z) :
  keeps (fun s => last_cmd_ s = c /\ awaiting_reply_ s = a
                  /\ rx_buf_ s = buf /\ last_tx_time_ s = t
                  /\ sent_second_init_ s = i /\ device_id_ s = d)
    (handle_reply_for_cmd_ bytes).
Proof.
  unfold handle_reply_for_cmd_, update_tamper_state_, handle_keypress_,
    bump_backlight_. cbv zeta.
  repeat keeps_frame_step.
Qed.

(** X7. Whatever bytes it is given, [handle_reply_for_cmd_] writes no frame and
    leaves the command in flight, the awaiting flag, the receive buffer, the
    transmit time, the init state and the device id as they were. *)
Theorem handle_reply_never_transmits (bytes : list Z) (s : St) (e : Env) :
  let r := handle_reply_for_cmd_ bytes s e in
  frames_written (trace (env_of r)) = frames_written (trace e)
  /\ last_cmd_ (st_of r) = last_cmd_ s
  /\ awaiting_reply_ (st_of r) = awaiting_reply_ s
  /\ rx_buf_ (st_of r) = rx_buf_ s
  /\ last_tx_time_ (st_of r) = last_tx_time_ s
  /\ sent_second_init_ (st_of r) = sent_second_init_ s
  /\ device_id_ (st_of r) = device_id_ s.
Proof.
  split; [apply handle_reply_silent|].
  apply (handle_reply_keeps_slot bytes (last_cmd_ s) (awaiting_reply_ s)
           (rx_buf_ s) (last_tx_time_ s) (sent_second_init_ s)
           (device_id_ s) s e).
  repeat split.
Qed.

(** ** Reply interpreter: well-formed F4 frames *)

(** What a well-formed frame [addr F4 code checksum] does, by the command it
    answers. *)
Lemma handle_reply_f4 (code : Z) (s : St) (e : Env) :
  let d := decode_key_and_tamper_ code in
  let s1 := set_in_tamper_ (snd d) (link_refresh (next_millis e) s) in
  handle_reply_for_cmd_ (key_event code) s e
  = match last_cmd_ s with
    | CMD_SCREEN_07 =>
        (tt,
         if code =? 0x7F
         then set_ack_pending_code_ 0x00 (set_key_ack_pending_ false s1)
         else s1,
         after_reads 1 e)
    | CMD_ACTIVITY_19 =>
        if tamper_only_of d then (tt, s1, after_reads 1 e)
        else if key_suppressed code (second_millis e) s
        then (tt, arm_ack code s1, after_reads 2 e)
        else
          let r := handle_keypress_ (fst d) (snd d)
                     (record_key (fst d) (snd d) (second_millis e) s1)
                     (after_reads 2 e) in
          (tt, arm_ack code (st_of r), env_of r)
    | _ => (tt, s1, after_reads 1 e)
    end.
Proof.
  cbv zeta.
  assert (Hkey : code = 0x7F
                 \/ (code <> 0x7F
                     /\ str_empty (fst (decode_key_and_tamper_ code)) = false)).
  { destruct (Z.eq_dec code 0x7F) as [->|Hne]; [now left | right].
    split; [exact Hne|].
    apply key_labels_nonempty, (decode_label_in_table code Hne). }
  unfold key_suppressed, tamper_only_of, second_millis, next_millis,
    after_reads, arm_ack, record_key, link_refresh, handle_reply_for_cmd_,
    key_event, update_tamper_state_.
  destruct Hkey as [-> | [Hne Hemp]].
  - destruct s, e, last_cmd_0, panel_online_0, in_tamper_0; reflexivity.
  - apply Z.eqb_neq in Hne.
    destruct (decode_key_and_tamper_ code) as [key tamper] eqn:Hd.
    cbn [fst snd] in *.
    destruct s, e. unfold_m.
    cbn -[galaxy_checksum decode_key_and_tamper_ handle_keypress_ wrap32
          sub32 String.eqb Z.eqb].
    rewrite !Z.eqb_refl.
    change (244 =? 254) with false. change (244 =? 242) with false.
    change (244 =? 244) with true.
    rewrite ?andb_false_r.
    destruct panel_online_0, last_cmd_0;
      cbn -[galaxy_checksum decode_key_and_tamper_ handle_keypress_ wrap32
            sub32 String.eqb Z.eqb];
      rewrite ?Z.eqb_refl, ?Hd, ?Hne; cbn [fst snd negb];
      rewrite ?Hemp;
      destruct (Bool.eqb_spec tamper in_tamper_0); subst;
      cbn -[handle_keypress_ wrap32 sub32 String.eqb Z.eqb];
      try reflexivity.
    all: rewrite <- negb_orb;
      match goal with
      | |- context [negb ?b] => destruct b
      end;
      cbn -[handle_keypress_ wrap32 sub32 String.eqb Z.eqb];
      try reflexivity.
    all: match goal with
         | |- context [handle_keypress_ ?k ?t ?S ?E] =>
             destruct (handle_keypress_ k t S E) as [[u s'] e']
         end; reflexivity.
Qed.

Lemma in_tamper_set (v : bool) (s : St) : in_tamper_ (set_in_tamper_ v s) = v.
Proof. destruct s; reflexivity. Qed.

(** X8. After any well-formed F4 frame, whatever command it answers, the tamper
    state is the decoded tamper flag: bit 6 of the code, and set for the
    sentinel 0x7F. *)
Theorem handle_reply_f4_tamper (code : Z) (s : St) (e : Env) :
  in_tamper_ (st_of (handle_reply_for_cmd_ (key_event code) s e))
  = snd (decode_key_and_tamper_ code).
Proof.
  rewrite handle_reply_f4. cbv zeta.
  set (d := decode_key_and_tamper_ code).
  set (s0 := link_refresh (next_millis e) s).
  assert (H1 : in_tamper_ (set_in_tamper_ (snd d) s0) = snd d)
    by apply in_tamper_set.
  destruct (last_cmd_ s); try exact H1.
  - destruct (tamper_only_of d); [exact H1|].
    destruct (key_suppressed code (second_millis e) s).
    + unfold st_of, arm_ack. cbn [fst snd].
      destruct (set_in_tamper_ (snd d) s0); exact H1.
    + pose proof (handle_keypress_frame (fst d) (snd d)
                    (record_key (fst d) (snd d) (second_millis e)
                       (set_in_tamper_ (snd d) s0))
                    (after_reads 2 e)) as HF.
      cbv zeta in HF. destruct HF as (_ & _ & _ & _ & _ & _ & _ & HF).
      destruct (handle_keypress_ _ _ _ _) as [[u s'] e'].
      unfold st_of, arm_ack, record_key in *. cbn [fst snd] in *.
      destruct s'. cbn in HF |- *. rewrite HF.
      destruct (set_in_tamper_ (snd d) s0); exact H1.
  - destruct (code =? 0x7F); unfold st_of; cbn [fst snd];
      [destruct (set_in_tamper_ (snd d) s0) |]; exact H1.
Qed.

(** X9. Replies to a screen update.  A well-formed F4 with the sentinel code
    clears the pending acknowledgement, any other F4 leaves it; neither
    touches the owed-acknowledgement flag or the input, nor enters
    [handle_keypress_].  [addr FE BA] clears the tamper state and leaves the
    acknowledgement bookkeeping alone. *)
Theorem handle_reply_after_screen
  (code : Z) (rest : list Z) (s : St) (e : Env) :
  last_cmd_ s = CMD_SCREEN_07 ->
  let r := handle_reply_for_cmd_ (key_event code) s e in
  let q := handle_reply_for_cmd_ (KEYPAD_ADDR :: 0xFE :: 0xBA :: rest) s e in
  (key_ack_pending_ (st_of r)
   = (if code =? 0x7F then false else key_ack_pending_ s)
   /\ ack_pending_code_ (st_of r)
      = (if code =? 0x7F then 0x00 else ack_pending_code_ s)
   /\ needs_button_ack_ (st_of r) = needs_button_ack_ s
   /\ input_buffer_ (st_of r) = input_buffer_ s
   /\ trace (env_of r) = trace e)
  /\ (in_tamper_ (st_of q) = false
      /\ key_ack_pending_ (st_of q) = key_ack_pending_ s
      /\ ack_pending_code_ (st_of q) = ack_pending_code_ s
      /\ needs_button_ack_ (st_of q) = needs_button_ack_ s
      /\ need_reinit_after_f2_ (st_of q) = need_reinit_after_f2_ s
      /\ trace (env_of q) = trace e).
Proof.
  intros Hcmd. cbv zeta. split.
  - rewrite handle_reply_f4. cbv zeta. rewrite Hcmd.
    unfold link_refresh, after_reads, st_of, env_of. cbn [fst snd].
    destruct s, e.
    destruct (code =? 0x7F), panel_online_0; repeat split.
  - destruct s, e. cbn [last_cmd_] in Hcmd. subst.
    unfold handle_reply_for_cmd_, update_tamper_state_. unfold_m.
    cbn -[wrap32].
    destruct panel_online_0, in_tamper_0; repeat split.
Qed.

Lemma handle_reply_after_screen_witness :
  let s := set_ack_pending_code_ 0x01
             (set_key_ack_pending_ true
                (set_last_cmd_ CMD_SCREEN_07 St_init)) in
  let r := handle_reply_for_cmd_ (key_event 0x7F) s (env_at 7000 []) in
  let q := handle_reply_for_cmd_ (KEYPAD_ADDR :: 0xFE :: 0xBA :: [])
             s (env_at 7000 []) in
  (key_ack_pending_ (st_of r) = false
   /\ ack_pending_code_ (st_of r) = 0x00
   /\ needs_button_ack_ (st_of r) = false
   /\ input_buffer_ (st_of r) = EmptyString
   /\ trace (env_of r) = [])
  /\ (in_tamper_ (st_of q) = false
      /\ key_ack_pending_ (st_of q) = true
      /\ ack_pending_code_ (st_of q) = 0x01
      /\ needs_button_ack_ (st_of q) = false
      /\ need_reinit_after_f2_ (st_of q) = false
      /\ trace (env_of q) = []).
Proof.
  exact (handle_reply_after_screen 0x7F []
           (set_ack_pending_code_ 0x01
              (set_key_ack_pending_ true
                 (set_last_cmd_ CMD_SCREEN_07 St_init)))
           (env_at 7000 []) eq_refl).
Defined.

(** ** Reply interpreter: arbitrary bytes *)

Ltac reply_cbn :=
  cbn -[galaxy_checksum decode_key_and_tamper_ handle_keypress_ wrap32 sub32
        String.eqb Z.eqb Z.leb str_empty].

Lemma handle_keypress_keeps_link (key_name : string) (tamper : bool)
  (o : bool) (t : Z) (b : bool) :
  keeps (fun s => panel_online_ s = o /\ last_panel_rx_ms_ s = t
                  /\ beep_set_ s = b)
    (handle_keypress_ key_name tamper).
Proof.
  unfold handle_keypress_, bump_backlight_. cbv zeta.
  repeat keeps_frame_step.
Qed.

(** X10. Any reply that starts with the keypad's address, whatever follows and
    whatever command it answers, marks the panel online and stamps the
    receive time; the beep configuration is scheduled again exactly when the
    panel was offline. *)
Theorem handle_reply_marks_online (rest : list Z) (s : St) (e : Env) :
  let r := handle_reply_for_cmd_ (KEYPAD_ADDR :: rest) s e in
  panel_online_ (st_of r) = true
  /\ last_panel_rx_ms_ (st_of r) = next_millis e
  /\ beep_set_ (st_of r) = panel_online_ s && beep_set_ s.
Proof.
  cbv zeta. unfold next_millis.
  destruct s, e. unfold handle_reply_for_cmd_, update_tamper_state_.
  unfold_m. rewrite Z.eqb_refl.
  destruct rest as [|b1 [|b2 [|b3 [|b4 rest]]]]; reply_cbn;
    destruct panel_online_0; reply_cbn.
  all: repeat (split_if; reply_cbn).
  all: try (repeat split; reflexivity).
  all: match goal with
       | |- context [handle_keypress_ ?k ?t ?S ?E] =>
           pose proof (handle_keypress_keeps_link k t _ _ _ S E
                         (conj eq_refl (conj eq_refl eq_refl))) as HF;
           destruct (handle_keypress_ k t S E) as [[u s'] e']
       end;
       unfold st_of in HF; cbn [fst snd] in HF;
       destruct s'; cbn in HF |- *; exact HF.
Qed.

(** X11. Key input is taken only from replies to an activity poll: while any
    other command is the last one sent, no reply, well-formed or not, enters
    [handle_keypress_], publishes, changes the input buffer, the dedupe
    record or the backlight, or makes a screen acknowledgement owed. *)
Theorem handle_reply_input_only_after_activity
  (bytes : list Z) (s : St) (e : Env) :
  last_cmd_ s <> CMD_ACTIVITY_19 ->
  let r := handle_reply_for_cmd_ bytes s e in
  trace (env_of r) = trace e
  /\ input_buffer_ (st_of r) = input_buffer_ s
  /\ needs_button_ack_ (st_of r) = needs_button_ack_ s
  /\ last_key_name_ (st_of r) = last_key_name_ s
  /\ last_key_tamper_ (st_of r) = last_key_tamper_ s
  /\ last_key_ts_ (st_of r) = last_key_ts_ s
  /\ backlight_off_at_ (st_of r) = backlight_off_at_ s
  /\ backlight_cmd_pending_ (st_of r) = backlight_cmd_pending_ s.
Proof.
  intros Hcmd. cbv zeta.
  destruct s, e. cbn [last_cmd_] in Hcmd.
  unfold handle_reply_for_cmd_, update_tamper_state_. unfold_m.
  destruct bytes as [|b0 [|b1 [|b2 [|b3 [|b4 rest]]]]];
    [repeat split | | | | |];
    (destruct (b0 =? KEYPAD_ADDR); [|repeat split]);
    destruct last_cmd_0; try congruence; reply_cbn;
    repeat (split_if; reply_cbn); repeat split; reflexivity.
Qed.

Lemma handle_reply_input_only_after_activity_witness :
  let s := set_last_cmd_ CMD_POLL_00 St_init in
  let r := handle_reply_for_cmd_ (key_event 0x01) s (env_at 100 []) in
  trace (env_of r) = []
  /\ input_buffer_ (st_of r) = EmptyString
  /\ needs_button_ack_ (st_of r) = false
  /\ last_key_name_ (st_of r) = EmptyString
  /\ last_key_tamper_ (st_of r) = false
  /\ last_key_ts_ (st_of r) = 0
  /\ backlight_off_at_ (st_of r) = 0
  /\ backlight_cmd_pending_ (st_of r) = false.
Proof.
  apply (handle_reply_input_only_after_activity (key_event 0x01)
           (set_last_cmd_ CMD_POLL_00 St_init) (env_at 100 [])).
  discriminate.
Defined.

(** ** Input handling: typing, submitting, cancelling *)

Lemma published_app (a b : list Event) :
  published (a ++ b) = published a ++ published b.
Proof.
  induction a as [|ev a IH]; cbn; [reflexivity|].
  destruct ev; cbn; rewrite IH; reflexivity.
Qed.

Lemma str_append_assoc (a b c : string) :
  ((a ++ b) ++ c)%string = (a ++ (b ++ c))%string.
Proof. induction a as [|x a IH]; cbn; [reflexivity | now rewrite IH]. Qed.

Lemma str_append_empty_r (a : string) : (a ++ "")%string = a.
Proof. induction a as [|x a IH]; cbn; [reflexivity | now rewrite IH]. Qed.

(** A character key appends its label and nothing else reaches the sink. *)
Lemma handle_keypress_char (key_name : string) (tamper : bool)
  (s : St) (e : Env) :
  In key_name char_labels ->
  let r := handle_keypress_ key_name tamper s e in
  input_buffer_ (st_of r) = (input_buffer_ s ++ key_name)%string
  /\ screen_dirty_ (st_of r) = true
  /\ rx_sens_ (st_of r) = rx_sens_ s
  /\ published (trace (env_of r)) = published (trace e).
Proof.
  unfold char_labels. cbn [In]. intros Hin.
  destruct s, e.
  repeat (destruct Hin as [<- | Hin];
          [unfold handle_keypress_, bump_backlight_; unfold_m;
           cbn -[wrap32 add32];
           destruct backlight_on_0; cbn -[wrap32 add32];
           rewrite ?published_app; cbn; rewrite ?app_nil_r;
           repeat split; reflexivity|]).
  contradiction.
Qed.

Lemma handle_keypress_ESC (tamper : bool) (s : St) (e : Env) :
  let r := handle_keypress_ "ESC" tamper s e in
  input_buffer_ (st_of r) = EmptyString
  /\ screen_dirty_ (st_of r) = true
  /\ rx_sens_ (st_of r) = rx_sens_ s
  /\ published (trace (env_of r)) = published (trace e).
Proof.
  destruct s, e. unfold handle_keypress_, bump_backlight_. unfold_m.
  cbn -[wrap32 add32].
  destruct backlight_on_0, input_buffer_0; cbn -[wrap32 add32];
    rewrite ?published_app; cbn; rewrite ?app_nil_r; repeat split.
Qed.

Lemma handle_keypress_ENT_published (tamper : bool) (s : St) (e : Env) :
  let r := handle_keypress_ "ENT" tamper s e in
  input_buffer_ (st_of r) = EmptyString
  /\ screen_dirty_ (st_of r) = true
  /\ published (trace (env_of r))
     = published (trace e)
       ++ match rx_sens_ s with
          | Some _ =>
              if str_empty (input_buffer_ s) then [] else [input_buffer_ s]
          | None => []
          end.
Proof.
  destruct s, e. unfold handle_keypress_, bump_backlight_. unfold_m.
  cbn -[wrap32 add32].
  destruct backlight_on_0, input_buffer_0, rx_sens_0; cbn -[wrap32 add32];
    rewrite ?published_app; cbn; rewrite ?app_nil_r; repeat split.
Qed.

Lemma type_keys_chars (keys : list (string * bool)) :
  forall s e,
    Forall (fun k => In (fst k) char_labels) keys ->
    let r := type_keys keys s e in
    input_buffer_ (st_of r)
    = (input_buffer_ s ++ fold_right String.append "" (map fst keys))%string
    /\ rx_sens_ (st_of r) = rx_sens_ s
    /\ published (trace (env_of r)) = published (trace e).
Proof.
  induction keys as [|[k t] keys IH]; intros s e Hall; cbv zeta.
  - cbn. now rewrite str_append_empty_r.
  - inversion Hall as [|? ? Hk Hrest]; subst. cbn [fst] in Hk.
    cbn [type_keys map fold_right fst]. unfold bind.
    pose proof (handle_keypress_char k t s e Hk) as H1. cbv zeta in H1.
    destruct (handle_keypress_ k t s e) as [[u s1] e1].
    unfold st_of, env_of in H1. cbn [fst snd] in H1.
    destruct H1 as (Hbuf & _ & Hsens & Hpub).
    specialize (IH s1 e1 Hrest). cbv zeta in IH.
    destruct IH as (IHbuf & IHsens & IHpub).
    rewrite IHbuf, IHsens, IHpub, Hbuf, Hsens, Hpub, str_append_assoc.
    repeat split.
Qed.

(** X12. Typing character keys and pressing ENT publishes, once, what was in the
    buffer followed by the typed labels in order (nothing if that is empty),
    and leaves the buffer empty. *)
Theorem typed_code_is_published
  (keys : list (string * bool)) (tamper : bool) (p : TextSensor)
  (s : St) (e : Env) :
  Forall (fun k => In (fst k) char_labels) keys ->
  rx_sens_ s = Some p ->
  let code :=
    (input_buffer_ s ++ fold_right String.append "" (map fst keys))%string in
  let r := (type_keys keys ;; handle_keypress_ "ENT" tamper) s e in
  published (trace (env_of r))
  = published (trace e) ++ (if str_empty code then [] else [code])
  /\ input_buffer_ (st_of r) = EmptyString
  /\ screen_dirty_ (st_of r) = true.
Proof.
  intros Hall Hsens. cbv zeta. unfold bind.
  pose proof (type_keys_chars keys s e Hall) as H1. cbv zeta in H1.
  destruct (type_keys keys s e) as [[u s1] e1].
  unfold st_of, env_of in H1. cbn [fst snd] in H1.
  destruct H1 as (Hbuf & Hs1 & Hpub).
  pose proof (handle_keypress_ENT_published tamper s1 e1) as H2.
  cbv zeta in H2. destruct H2 as (Hb2 & Hd2 & Hp2).
  rewrite Hp2, Hs1, Hsens, Hbuf, Hpub. repeat split; assumption.
Qed.

Lemma typed_code_is_published_witness :
  let keys := [("1", false); ("2", false); ("3", false); ("4", false)]%string in
  let s := set_rx_sens_ (Some 0%nat) St_init in
  let r := (type_keys keys ;; handle_keypress_ "ENT" false) s (env_at 0 []) in
  published (trace (env_of r)) = ["1234"%string]
  /\ input_buffer_ (st_of r) = EmptyString
  /\ screen_dirty_ (st_of r) = true.
Proof.
  apply (typed_code_is_published
           [("1", false); ("2", false); ("3", false); ("4", false)]%string
           false 0%nat (set_rx_sens_ (Some 0%nat) St_init) (env_at 0 [])).
  - repeat constructor; cbn; tauto.
  - reflexivity.
Defined.

(** X13. ESC cancels: character keys, then ESC, then ENT publish nothing and
    leave the buffer empty. *)
Theorem escape_discards_typed_code
  (keys : list (string * bool)) (t1 t2 : bool) (s : St) (e : Env) :
  Forall (fun k => In (fst k) char_labels) keys ->
  let r := (type_keys keys ;; handle_keypress_ "ESC" t1 ;;
            handle_keypress_ "ENT" t2) s e in
  published (trace (env_of r)) = published (trace e)
  /\ input_buffer_ (st_of r) = EmptyString.
Proof.
  intros Hall. cbv zeta. unfold bind.
  pose proof (type_keys_chars keys s e Hall) as H1. cbv zeta in H1.
  destruct (type_keys keys s e) as [[u s1] e1].
  unfold st_of, env_of in H1. cbn [fst snd] in H1.
  destruct H1 as (_ & _ & Hpub).
  pose proof (handle_keypress_ESC t1 s1 e1) as H2. cbv zeta in H2.
  destruct (handle_keypress_ "ESC" t1 s1 e1) as [[u2 s2] e2].
  unfold st_of, env_of in H2. cbn [fst snd] in H2.
  destruct H2 as (Hbuf2 & _ & _ & Hpub2).
  pose proof (handle_keypress_ENT_published t2 s2 e2) as H3.
  cbv zeta in H3. destruct H3 as (Hb3 & _ & Hp3).
  rewrite Hp3, Hbuf2, Hpub2, Hpub. cbn [str_empty].
  split; [|exact Hb3].
  destruct (rx_sens_ s2); apply app_nil_r.
Qed.

Lemma escape_discards_typed_code_witness :
  let keys := [("1", false); ("2", false)]%string in
  let s := set_rx_sens_ (Some 0%nat) St_init in
  let r := (type_keys keys ;; handle_keypress_ "ESC" false ;;
            handle_keypress_ "ENT" false) s (env_at 0 []) in
  published (trace (env_of r)) = []
  /\ input_buffer_ (st_of r) = EmptyString.
Proof.
  apply (escape_discards_typed_code [("1", false); ("2", false)]%string
           false false (set_rx_sens_ (Some 0%nat) St_init) (env_at 0 [])).
  repeat constructor; cbn; tauto.
Defined.

(** X14. From the wire to the buffer: a well-formed event of a character key
    after an activity poll, when not suppressed, appends exactly the decoded
    label to the input buffer and makes a screen acknowledgement owed. *)
Theorem key_event_types_label (code : Z) (s : St) (e : Env) :
  last_cmd_ s = CMD_ACTIVITY_19 ->
  In (fst (decode_key_and_tamper_ code)) char_labels ->
  key_suppressed code (second_millis e) s = false ->
  let r := handle_reply_for_cmd_ (key_event code) s e in
  input_buffer_ (st_of r)
  = (input_buffer_ s ++ fst (decode_key_and_tamper_ code))%string
  /\ needs_button_ack_ (st_of r) = true
  /\ screen_dirty_ (st_of r) = true
  /\ published (trace (env_of r)) = published (trace e).
Proof.
  intros Hcmd Hin Hsup. cbv zeta.
  rewrite handle_reply_f4. cbv zeta. rewrite Hcmd, Hsup.
  assert (Hto : tamper_only_of (decode_key_and_tamper_ code) = false).
  { unfold tamper_only_of.
    destruct (fst (decode_key_and_tamper_ code)); [|reflexivity].
    unfold char_labels in Hin. cbn in Hin.
    repeat (destruct Hin as [Hin|Hin]; [discriminate|]). contradiction. }
  rewrite Hto.
  set (d := decode_key_and_tamper_ code) in *.
  set (s2 := record_key _ _ _ _).
  pose proof (handle_keypress_char (fst d) (snd d) s2 (after_reads 2 e) Hin)
    as H1.
  cbv zeta in H1.
  destruct (handle_keypress_ (fst d) (snd d) s2 (after_reads 2 e))
    as [[u s3] e3].
  unfold st_of, env_of in *. cbn [fst snd] in *.
  destruct H1 as (Hbuf & _ & _ & Hpub).
  assert (Hs2 : input_buffer_ s2 = input_buffer_ s).
  { subst s2. unfold record_key, link_refresh.
    destruct s. cbn. destruct panel_online_0; reflexivity. }
  rewrite Hs2 in Hbuf. unfold after_reads in Hpub. cbn [trace] in Hpub.
  unfold arm_ack. destruct s3. cbn in Hbuf |- *.
  repeat split; assumption.
Qed.

Lemma key_event_types_label_witness :
  let s := set_input_buffer_ "12" (set_last_cmd_ CMD_ACTIVITY_19 St_init) in
  let r := handle_reply_for_cmd_ (key_event 0x03) s (env_at 1000 []) in
  input_buffer_ (st_of r) = "123"%string
  /\ needs_button_ack_ (st_of r) = true
  /\ screen_dirty_ (st_of r) = true
  /\ published (trace (env_of r)) = [].
Proof.
  apply (key_event_types_label 0x03
           (set_input_buffer_ "12" (set_last_cmd_ CMD_ACTIVITY_19 St_init))
           (env_at 1000 [])).
  - reflexivity.
  - cbn. tauto.
  - reflexivity.
Defined.

(** ** The tick *)

(** [loop] is the offline check, the idle branch and, unless that returned,
    the rest of the tick. *)
Lemma loop_unfold (s : St) (e : Env) :
  loop s e
  = let now := next_millis e in
    let '(returned, s1, e1) :=
      loop_schedule_ now (offline_check now s) (after_reads 1 e) in
    if returned then (tt, s1, e1) else loop_finish_ now s1 e1.
Proof.
  destruct e as [clk n fifo tr].
  unfold loop, offline_check, next_millis, after_reads. do 2 unfold_m.
  cbn [clock reads uart_rx trace Nat.add].
  destruct (panel_online_ s
            && (PANEL_OFFLINE_TIMEOUT_MS
                <? sub32 (wrap32 (clk n)) (last_panel_rx_ms_ s)));
    cbn [fst snd];
    match goal with
    | |- context [loop_schedule_ ?t ?x ?y] =>
        destruct (loop_schedule_ t x y) as [[[] s1] e1]
    end; reflexivity.
Qed.

(** With a command in flight the idle branch does nothing. *)
Lemma loop_schedule_awaiting (now : Z) (s : St) (e : Env) :
  awaiting_reply_ s = true -> loop_schedule_ now s e = (false, s, e).
Proof.
  intros H. unfold loop_schedule_. unfold_m. rewrite H. reflexivity.
Qed.

Lemma offline_check_frame (now : Z) (s : St) :
  awaiting_reply_ (offline_check now s) = awaiting_reply_ s
  /\ last_tx_time_ (offline_check now s) = last_tx_time_ s
  /\ rx_buf_ (offline_check now s) = rx_buf_ s
  /\ last_cmd_ (offline_check now s) = last_cmd_ s.
Proof.
  unfold offline_check. destruct s. cbn.
  split_if; repeat split.
Qed.

(** The rest of the tick when no reply is due: the UART is drained into the
    receive buffer and the backlight deadline is checked. *)
Lemma loop_finish_waiting (now : Z) (s : St) (e : Env) :
  awaiting_reply_ s && (REPLY_WAIT_MS <=? sub32 now (last_tx_time_ s)) = false ->
  loop_finish_ now s e
  = (tt,
     backlight_expire now (set_rx_buf_ (rx_buf_ s ++ uart_rx e) s),
     Build_Env (clock e) (reads e) [] (trace e)).
Proof.
  destruct s, e. cbn [awaiting_reply_ last_tx_time_]. intros Hwin.
  unfold loop_finish_, rx_accumulate_, backlight_expire. unfold_m.
  rewrite read_all_app.
  cbn -[sub32 Z.leb REPLY_WAIT_MS]. rewrite Hwin.
  cbn -[Z.leb].
  repeat (split_if; cbn -[Z.leb]); reflexivity.
Qed.

Lemma loop_finish_silent (now : Z) : silent (loop_finish_ now).
Proof.
  unfold loop_finish_. cbv zeta.
  assert (Hrx : silent rx_accumulate_) by (intros s []; reflexivity).
  repeat first [apply Hrx | apply handle_reply_silent | silent_step].
Qed.

(** X15. Half duplex: a tick that starts with a command awaiting its reply writes
    no frame, whatever the UART delivers and however much time has passed. *)
Theorem loop_awaiting_writes_nothing (s : St) (e : Env) :
  awaiting_reply_ s = true ->
  frames_written (trace (env_of (loop s e))) = frames_written (trace e).
Proof.
  intros Haw. rewrite loop_unfold. cbv zeta.
  rewrite loop_schedule_awaiting
    by (now rewrite (proj1 (offline_check_frame _ s))).
  rewrite loop_finish_silent. reflexivity.
Qed.

Lemma loop_awaiting_writes_nothing_witness :
  let s := set_last_tx_time_ 1000
             (set_last_cmd_ CMD_ACTIVITY_19
                (set_awaiting_reply_ true St_init)) in
  frames_written
    (trace (env_of (loop s (env_at 1100 (key_event 0x01)))))
  = [].
Proof.
  exact (loop_awaiting_writes_nothing
           (set_last_tx_time_ 1000
              (set_last_cmd_ CMD_ACTIVITY_19
                 (set_awaiting_reply_ true St_init)))
           (env_at 1100 (key_event 0x01)) eq_refl).
Defined.

(** X16. Inside the reply window a tick only collects bytes: what the UART holds
    is appended to the receive buffer, the command stays in flight, and no
    reply is interpreted. *)
Theorem loop_within_reply_window (s : St) (e : Env) :
  awaiting_reply_ s = true ->
  sub32 (next_millis e) (last_tx_time_ s) < REPLY_WAIT_MS ->
  let r := loop s e in
  rx_buf_ (st_of r) = rx_buf_ s ++ uart_rx e
  /\ uart_rx (env_of r) = []
  /\ awaiting_reply_ (st_of r) = true
  /\ last_cmd_ (st_of r) = last_cmd_ s
  /\ trace (env_of r) = trace e
  /\ in_tamper_ (st_of r) = in_tamper_ s
  /\ key_ack_pending_ (st_of r) = key_ack_pending_ s.
Proof.
  intros Haw Hwin. cbv zeta. rewrite loop_unfold. cbv zeta.
  destruct (offline_check_frame (next_millis e) s) as (Ha & Ht & Hb & Hc).
  rewrite loop_schedule_awaiting by (now rewrite Ha).
  rewrite loop_finish_waiting.
  2:{ rewrite Ht. apply andb_false_iff. right. apply Z.leb_gt. exact Hwin. }
  unfold after_reads, st_of, env_of. cbn [fst snd uart_rx trace].
  rewrite Hb. clear Ha Ht Hb Hc.
  unfold backlight_expire, offline_check.
  destruct s. cbn -[Z.leb Z.ltb sub32] in Haw |- *. subst.
  repeat (split_if; cbn -[Z.leb Z.ltb sub32]); repeat split.
Qed.

Lemma loop_within_reply_window_witness :
  let s := set_last_tx_time_ 1000
             (set_last_cmd_ CMD_ACTIVITY_19
                (set_awaiting_reply_ true St_init)) in
  let r := loop s (env_at 1040 [0x11; 0xF4]) in
  rx_buf_ (st_of r) = [0x11; 0xF4]
  /\ uart_rx (env_of r) = []
  /\ awaiting_reply_ (st_of r) = true
  /\ last_cmd_ (st_of r) = CMD_ACTIVITY_19
  /\ trace (env_of r) = []
  /\ in_tamper_ (st_of r) = false
  /\ key_ack_pending_ (st_of r) = false.
Proof.
  apply (loop_within_reply_window
           (set_last_tx_time_ 1000
              (set_last_cmd_ CMD_ACTIVITY_19
                 (set_awaiting_reply_ true St_init)))
           (env_at 1040 [0x11; 0xF4])).
  - reflexivity.
  - reflexivity.
Defined.

Ltac tick_cbn :=
  cbn -[frame_of wrap32 sub32 add32 Z.leb Z.ltb Z.eqb str_resize str_fill
        bytes_of_string Nat.min String.length Z.lor loop_finish_
        backlight_expire offline_check build_screen_frame_].

(** X20. Changing the beep configuration takes effect on the wire: once the
    second init poll is done and nothing more urgent is due, the next idle
    tick sends [dev 0C mode period quiet] with the values given and marks the
    configuration sent. *)
Theorem set_beep_enabled_is_sent
  (enabled : bool) (beep_period quiet_period : Z) (s : St) (e0 e : Env) :
  awaiting_reply_ s = false ->
  need_reinit_after_f2_ s = false ->
  sent_second_init_ s = true ->
  screen_dirty_ s = false ->
  sub32 (next_millis e) (last_init_poll_ s) < INIT_POLL_INTERVAL_MS ->
  let s1 := st_of (set_beep_enabled enabled beep_period quiet_period s e0) in
  let r := loop s1 e in
  frames_written (trace (env_of r))
  = frames_written (trace e)
    ++ [frame_of [device_id_ s; 0x0C; if enabled then 0x01 else 0x00;
                  beep_period; quiet_period]]
  /\ beep_set_ (st_of r) = true
  /\ last_cmd_ (st_of r) = CMD_BEEP_0C
  /\ awaiting_reply_ (st_of r) = true.
Proof.
  intros Haw Hre Hsent Hdirty Hpoll. cbv zeta.
  rewrite loop_unfold. cbv zeta.
  apply Z.leb_gt in Hpoll.
  destruct s, e.
  cbn [awaiting_reply_ need_reinit_after_f2_ sent_second_init_ screen_dirty_
       last_init_poll_ next_millis clock reads] in *.
  subst.
  unfold set_beep_enabled, loop_schedule_, loop_pick_, loop_switch_,
    offline_check, after_reads, next_millis, INIT_POLL_SECOND_MS,
    INIT_POLL_INTERVAL_MS in *.
  cbn [clock reads] in Hpoll.
  unfold_m. tick_cbn.
  destruct (panel_online_0 && _); tick_cbn; rewrite Hpoll; tick_cbn;
    (rewrite loop_finish_waiting
       by (cbn [awaiting_reply_ last_tx_time_]; rewrite sub32_diag;
           reflexivity));
    unfold backlight_expire;
    cbn -[frame_of wrap32 Z.leb];
    repeat (split_if; cbn -[frame_of wrap32 Z.leb]);
    rewrite frames_written_app; repeat split.
Qed.

Lemma set_beep_enabled_is_sent_witness :
  let s := set_last_init_poll_ 5000
             (set_beep_set_ true
                (set_screen_dirty_ false
                   (set_sent_second_init_ true St_init))) in
  let s1 := st_of (set_beep_enabled true 0x05 0x0A s (env_at 6000 [])) in
  let r := loop s1 (env_at 6010 []) in
  frames_written (trace (env_of r))
  = [frame_of [0x20; 0x0C; 0x01; 0x05; 0x0A]]
  /\ beep_set_ (st_of r) = true
  /\ last_cmd_ (st_of r) = CMD_BEEP_0C
  /\ awaiting_reply_ (st_of r) = true.
Proof.
  apply (set_beep_enabled_is_sent true 0x05 0x0A
           (set_last_init_poll_ 5000
              (set_beep_set_ true
                 (set_screen_dirty_ false
                    (set_sent_second_init_ true St_init))))
           (env_at 6000 []) (env_at 6010 [])); reflexivity.
Defined.

Ltac screen_cbn :=
  cbn -[frame_of wrap32 sub32 add32 Z.leb Z.ltb Z.eqb str_resize str_fill
        bytes_of_string Nat.min String.length Z.lor Z.testbit loop_finish_
        backlight_expire str_empty].

(** An idle tick with the second init done and the screen dirty sends the
    screen frame and, the backlight being off, asks for it to be switched
    on. *)
Lemma loop_screen_tick (s : St) (e : Env) :
  awaiting_reply_ s = false ->
  need_reinit_after_f2_ s = false ->
  sent_second_init_ s = true ->
  screen_dirty_ s = true ->
  backlight_on_ s = false ->
  let r := loop s e in
  frames_written (trace (env_of r))
  = frames_written (trace e)
    ++ [frame_of (val_of (build_screen_frame_ s e))]
  /\ last_cmd_ (st_of r) = CMD_SCREEN_07
  /\ screen_dirty_ (st_of r) = false
  /\ backlight_target_on_ (st_of r) = true
  /\ backlight_cmd_pending_ (st_of r) = true
  /\ backlight_on_ (st_of r) = false.
Proof.
  intros Haw Hre Hsent Hdirty Hon. cbv zeta.
  rewrite loop_unfold. cbv zeta.
  destruct s, e.
  cbn [awaiting_reply_ need_reinit_after_f2_ sent_second_init_ screen_dirty_
       backlight_on_] in *.
  subst.
  unfold loop_schedule_, loop_pick_, loop_switch_, bump_backlight_,
    build_screen_frame_, offline_check, after_reads, next_millis.
  unfold_m. screen_cbn.
  destruct (panel_online_0 && _); screen_cbn;
    destruct (screen_seq_flag_0 =? 0); screen_cbn;
    destruct needs_button_ack_0; screen_cbn;
    try (destruct (ack_toggle_0 =? 0); screen_cbn);
    destruct (str_empty input_buffer_0); screen_cbn;
    (rewrite loop_finish_waiting
       by (cbn [awaiting_reply_ last_tx_time_]; rewrite sub32_diag;
           reflexivity));
    unfold backlight_expire;
    cbn -[frame_of wrap32 add32 Z.leb str_resize str_fill
          bytes_of_string Nat.min String.length Z.lor];
    rewrite frames_written_app; repeat split.
Qed.

Lemma set_display_text_nobl_keeps (text : string) (a b c d : bool) :
  keeps (fun s => awaiting_reply_ s = a /\ need_reinit_after_f2_ s = b
                  /\ sent_second_init_ s = c /\ backlight_on_ s = d)
    (set_display_text_nobl text).
Proof.
  unfold set_display_text_nobl, parse_display_text_.
  repeat keeps_frame_step.
Qed.

Lemma set_display_text_nobl_dirty (text : string) (s : St) (e : Env) :
  screen_dirty_ (st_of (set_display_text_nobl text s e)) = true.
Proof.
  unfold set_display_text_nobl, parse_display_text_. unfold_m.
  destruct (str_empty text); cbn [fst snd];
    match goal with
    | |- context [split_pipe ?t] => destruct (split_pipe t) as [[l1 l2]|]
    end; destruct s; reflexivity.
Qed.

Lemma set_display_text_nobl_keeps_pending (text : string) (s : St) (e : Env) :
  backlight_cmd_pending_ (st_of (set_display_text_nobl text s e))
  = backlight_cmd_pending_ s.
Proof.
  unfold set_display_text_nobl, parse_display_text_. unfold_m.
  destruct (str_empty text); cbn [fst snd];
    match goal with
    | |- context [split_pipe ?t] => destruct (split_pipe t) as [[l1 l2]|]
    end; destruct s; reflexivity.
Qed.

(** X21. The redraw "without backlight" does not keep the backlight off.
    With the second init poll sent, no re-init after an F2 reply owed
    ([need_reinit_after_f2_] false), no reply awaited and the backlight off,
    the text set by [set_display_text_nobl] is pushed by the next tick, and
    that screen push asks for the backlight to be switched on. *)
Theorem silent_redraw_still_lights
  (text : string) (s : St) (e0 e : Env) :
  awaiting_reply_ s = false ->
  need_reinit_after_f2_ s = false ->
  sent_second_init_ s = true ->
  backlight_on_ s = false ->
  let s1 := st_of (set_display_text_nobl text s e0) in
  let r := loop s1 e in
  backlight_cmd_pending_ s1 = backlight_cmd_pending_ s
  /\ frames_written (trace (env_of r))
     = frames_written (trace e)
       ++ [frame_of (val_of (build_screen_frame_ s1 e))]
  /\ last_cmd_ (st_of r) = CMD_SCREEN_07
  /\ backlight_target_on_ (st_of r) = true
  /\ backlight_cmd_pending_ (st_of r) = true.
Proof.
  intros Haw Hre Hsent Hon. cbv zeta.
  destruct (set_display_text_nobl_keeps text _ _ _ _ s e0
              (conj Haw (conj Hre (conj Hsent Hon))))
    as (Haw1 & Hre1 & Hsent1 & Hon1).
  pose proof (set_display_text_nobl_dirty text s e0) as Hdirty1.
  pose proof (loop_screen_tick _ e Haw1 Hre1 Hsent1 Hdirty1 Hon1) as H.
  cbv zeta in H. destruct H as (Hf & Hc & _ & Ht & Hp & _).
  split; [|repeat split; assumption].
  apply (set_display_text_nobl_keeps_pending text s e0).
Qed.

Lemma silent_redraw_still_lights_witness :
  let s := set_beep_set_ true
             (set_screen_dirty_ false
                (set_sent_second_init_ true St_init)) in
  let s1 := st_of (set_display_text_nobl "KITCHEN|Disarmed" s (env_at 0 [])) in
  let r := loop s1 (env_at 10 []) in
  backlight_cmd_pending_ s1 = false
  /\ frames_written (trace (env_of r))
     = [] ++ [frame_of (val_of (build_screen_frame_ s1 (env_at 10 [])))]
  /\ last_cmd_ (st_of r) = CMD_SCREEN_07
  /\ backlight_target_on_ (st_of r) = true
  /\ backlight_cmd_pending_ (st_of r) = true.
Proof.
  apply (silent_redraw_still_lights "KITCHEN|Disarmed"
           (set_beep_set_ true
              (set_screen_dirty_ false
                 (set_sent_second_init_ true St_init)))
           (env_at 0 []) (env_at 10 [])); reflexivity.
Defined.

(** X22. Until the second init poll has gone out the driver sends no screen and
    no beep configuration: an idle tick sends the second init poll once 5 s
    have passed since the first, and before that only a pending backlight
    command or an activity poll. *)
Theorem loop_before_second_init (s : St) (e : Env) :
  awaiting_reply_ s = false ->
  need_reinit_after_f2_ s = false ->
  sent_second_init_ s = false ->
  let now := next_millis e in
  let r := loop s e in
  frames_written (trace (env_of r))
  = frames_written (trace e)
    ++ (if INIT_POLL_SECOND_MS <=? sub32 now (last_init_poll_ s)
        then [frame_of [device_id_ s; 0x00; 0x0F]]
        else if backlight_cmd_pending_ s
        then [frame_of [device_id_ s; 0x0D;
                        if backlight_target_on_ s then 0x01 else 0x00]]
        else if ACTIVITY_POLL_INTERVAL_MS
                <=? sub32 now (last_activity_poll_ s)
        then [frame_of [device_id_ s; 0x19; 0x01]]
        else [])
  /\ sent_second_init_ (st_of r)
     = (INIT_POLL_SECOND_MS <=? sub32 now (last_init_poll_ s))
  /\ beep_set_ (st_of r) = beep_set_ s
  /\ screen_seq_flag_ (st_of r) = screen_seq_flag_ s
  /\ needs_button_ack_ (st_of r) = needs_button_ack_ s.
Proof.
  intros Haw Hre Hsent. cbv zeta.
  rewrite loop_unfold. cbv zeta.
  destruct s, e.
  cbn [awaiting_reply_ need_reinit_after_f2_ sent_second_init_] in *.
  subst.
  unfold loop_schedule_, loop_pick_, loop_switch_, offline_check,
    after_reads, next_millis, INIT_POLL_SECOND_MS, INIT_POLL_INTERVAL_MS,
    ACTIVITY_POLL_INTERVAL_MS.
  unfold_m. screen_cbn.
  destruct (panel_online_0 && _); screen_cbn;
    destruct (5000 <=? sub32 (wrap32 (clock0 reads0)) last_init_poll_0);
    screen_cbn;
    try (destruct backlight_cmd_pending_0; screen_cbn);
    try (destruct (150 <=? sub32 (wrap32 (clock0 reads0))
                             last_activity_poll_0); screen_cbn);
    (rewrite loop_finish_waiting
       by (cbn [awaiting_reply_ last_tx_time_]; rewrite ?sub32_diag;
           reflexivity));
    unfold backlight_expire;
    cbn -[frame_of wrap32 Z.leb];
    repeat (split_if; cbn -[frame_of wrap32 Z.leb]);
    rewrite ?frames_written_app, ?app_nil_r; repeat split.
Qed.

Lemma loop_before_second_init_witness :
  let s := set_last_activity_poll_ 1000 (set_last_init_poll_ 1000 St_init) in
  let r := loop s (env_at 1200 []) in
  frames_written (trace (env_of r)) = [frame_of [0x20; 0x19; 0x01]]
  /\ sent_second_init_ (st_of r) = false
  /\ beep_set_ (st_of r) = false
  /\ screen_seq_flag_ (st_of r) = 0x00
  /\ needs_button_ack_ (st_of r) = false.
Proof.
  apply (loop_before_second_init
           (set_last_activity_poll_ 1000 (set_last_init_poll_ 1000 St_init))
           (env_at 1200 [])); reflexivity.
Defined.

(** The rest of the tick once the reply window has elapsed. *)
Lemma loop_finish_due (now : Z) (s : St) (e : Env) :
  awaiting_reply_ s = true ->
  REPLY_WAIT_MS <= sub32 now (last_tx_time_ s) ->
  loop_finish_ now s e
  = let buf := rx_buf_ s ++ uart_rx e in
    let s1 := set_rx_buf_ buf s in
    let e1 := Build_Env (clock e) (reads e) [] (trace e) in
    let '(_, s2, e2) :=
      match buf with
      | [] => (tt, s1, e1)
      | _ :: _ => handle_reply_for_cmd_ buf s1 e1
      end in
    (tt, backlight_expire now (set_awaiting_reply_ false (set_rx_buf_ [] s2)),
     e2).
Proof.
  destruct s, e. cbn [awaiting_reply_ last_tx_time_ rx_buf_ uart_rx].
  intros -> Hwin. apply Z.leb_le in Hwin.
  unfold loop_finish_, rx_accumulate_, backlight_expire. unfold_m.
  rewrite read_all_app.
  cbn -[sub32 Z.leb REPLY_WAIT_MS handle_reply_for_cmd_]. rewrite Hwin.
  cbn -[Z.leb handle_reply_for_cmd_].
  destruct (rx_buf_0 ++ uart_rx0) as [|b0 buf];
    cbn -[Z.leb handle_reply_for_cmd_].
  - repeat (split_if; cbn -[Z.leb]); reflexivity.
  - match goal with
    | |- context [handle_reply_for_cmd_ ?b ?S ?E] =>
        destruct (handle_reply_for_cmd_ b S E) as [[u s2] e2]
    end.
    destruct s2. cbn -[Z.leb].
    repeat (split_if; cbn -[Z.leb]); reflexivity.
Qed.

Lemma backlight_expire_frame (now : Z) (s : St) :
  awaiting_reply_ (backlight_expire now s) = awaiting_reply_ s
  /\ rx_buf_ (backlight_expire now s) = rx_buf_ s
  /\ last_cmd_ (backlight_expire now s) = last_cmd_ s
  /\ in_tamper_ (backlight_expire now s) = in_tamper_ s
  /\ panel_online_ (backlight_expire now s) = panel_online_ s.
Proof.
  unfold backlight_expire. destruct s. cbn -[Z.leb].
  repeat (split_if; cbn -[Z.leb]); repeat split.
Qed.

(** X17. Once the reply window of 100 ms has elapsed the slot is freed, reply or
    no reply: the tick ends idle with an empty receive buffer and has written
    nothing; and if no byte arrived at all, no reply is interpreted (the
    trace and the tamper state stay as they were). *)
Theorem loop_reply_window_closes (s : St) (e : Env) :
  awaiting_reply_ s = true ->
  REPLY_WAIT_MS <= sub32 (next_millis e) (last_tx_time_ s) ->
  let r := loop s e in
  awaiting_reply_ (st_of r) = false
  /\ rx_buf_ (st_of r) = []
  /\ last_cmd_ (st_of r) = last_cmd_ s
  /\ frames_written (trace (env_of r)) = frames_written (trace e)
  /\ match rx_buf_ s ++ uart_rx e with
     | [] => trace (env_of r) = trace e
             /\ in_tamper_ (st_of r) = in_tamper_ s
     | _ :: _ => True
     end.
Proof.
  intros Haw Hwin. cbv zeta. rewrite loop_unfold. cbv zeta.
  set (now := next_millis e) in *.
  destruct (offline_check_frame now s) as (Ha & Ht & Hb & Hc).
  rewrite loop_schedule_awaiting by (now rewrite Ha).
  rewrite loop_finish_due by (rewrite ?Ha, ?Ht; assumption).
  cbv zeta. rewrite Hb.
  set (s0 := offline_check now s) in *.
  assert (Hin0 : in_tamper_ s0 = in_tamper_ s).
  { subst s0. unfold offline_check. destruct s. cbn. split_if; reflexivity. }
  unfold after_reads. cbn [clock reads uart_rx trace].
  set (buf := rx_buf_ s ++ uart_rx e).
  set (s1 := set_rx_buf_ buf s0).
  set (e1 := Build_Env _ _ _ _).
  assert (Hcmd1 : last_cmd_ s1 = last_cmd_ s)
    by (subst s1; rewrite <- Hc; destruct s0; reflexivity).
  assert (Hin1 : in_tamper_ s1 = in_tamper_ s)
    by (subst s1; rewrite <- Hin0; destruct s0; reflexivity).
  assert (Hrun : forall s2 e2,
             last_cmd_ s2 = last_cmd_ s1 ->
             frames_written (trace e2) = frames_written (trace e) ->
             let r := (tt,
                       backlight_expire now
                         (set_awaiting_reply_ false (set_rx_buf_ [] s2)),
                       e2) : unit * St * Env in
             awaiting_reply_ (st_of r) = false
             /\ rx_buf_ (st_of r) = []
             /\ last_cmd_ (st_of r) = last_cmd_ s
             /\ frames_written (trace (env_of r)) = frames_written (trace e)).
  { intros s2 e2 Hc2 Hf2 r. subst r. unfold st_of, env_of.
    cbn [fst snd].
    destruct (backlight_expire_frame now
                (set_awaiting_reply_ false (set_rx_buf_ [] s2)))
      as (B1 & B2 & B3 & _).
    rewrite B1, B2, B3, <- Hcmd1, <- Hc2. destruct s2. repeat split.
    exact Hf2. }
  destruct buf as [|b0 buf'].
  - destruct (Hrun s1 e1 eq_refl eq_refl) as (R1 & R2 & R3 & R4).
    repeat (split; [assumption|]).
    unfold st_of, env_of. cbn [fst snd]. split; [reflexivity|].
    destruct (backlight_expire_frame now
                (set_awaiting_reply_ false (set_rx_buf_ [] s1)))
      as (_ & _ & _ & B4 & _).
    rewrite B4, <- Hin1. destruct s1. reflexivity.
  - pose proof (handle_reply_silent (b0 :: buf') s1 e1) as Hs.
    pose proof (handle_reply_keeps_slot (b0 :: buf') _ _ _ _ _ _ s1 e1
                  (conj eq_refl (conj eq_refl (conj eq_refl
                     (conj eq_refl (conj eq_refl eq_refl)))))) as Hk.
    destruct (handle_reply_for_cmd_ (b0 :: buf') s1 e1) as [[[] s2] e2].
    unfold st_of, env_of in Hs, Hk. cbn [fst snd] in Hs, Hk.
    destruct Hk as (Hc2 & _).
    destruct (Hrun s2 e2 Hc2 Hs) as (R1 & R2 & R3 & R4).
    repeat (split; [assumption|]). exact I.
Qed.

Lemma loop_reply_window_closes_witness :
  let s := set_last_tx_time_ 1000
             (set_last_cmd_ CMD_ACTIVITY_19
                (set_awaiting_reply_ true St_init)) in
  let r := loop s (env_at 1100 []) in
  awaiting_reply_ (st_of r) = false
  /\ rx_buf_ (st_of r) = []
  /\ last_cmd_ (st_of r) = CMD_ACTIVITY_19
  /\ frames_written (trace (env_of r)) = []
  /\ (trace (env_of r) = [] /\ in_tamper_ (st_of r) = false).
Proof.
  apply (loop_reply_window_closes
           (set_last_tx_time_ 1000
              (set_last_cmd_ CMD_ACTIVITY_19
                 (set_awaiting_reply_ true St_init)))
           (env_at 1100 [])).
  - reflexivity.
  - vm_compute. discriminate.
Defined.

Lemma loop_schedule_keeps_online (now : Z) (v : bool) :
  keeps (fun s => panel_online_ s = v) (loop_schedule_ now).
Proof.
  unfold loop_schedule_, loop_pick_. cbv zeta.
  repeat first
    [ progress unfold loop_switch_, send_frame, bump_backlight_,
        build_screen_frame_
    | keeps_frame_step ].
Qed.

(** The ticks on which [loop_finish_] interprets no reply. *)
Lemma loop_schedule_then_waiting (now : Z) (s : St) (e : Env) :
  awaiting_reply_ s = false \/ sub32 now (last_tx_time_ s) < REPLY_WAIT_MS ->
  let r := loop_schedule_ now s e in
  awaiting_reply_ (st_of r)
  && (REPLY_WAIT_MS <=? sub32 now (last_tx_time_ (st_of r))) = false.
Proof.
  intros Hq. cbv zeta.
  destruct (awaiting_reply_ s) eqn:Haw.
  - destruct Hq as [Hq|Hq]; [discriminate|].
    rewrite loop_schedule_awaiting by exact Haw.
    unfold st_of. cbn [fst snd].
    apply andb_false_iff. right. apply Z.leb_gt. exact Hq.
  - pose proof (loop_schedule_by_priority now s e Haw) as H.
    cbv zeta in H. destruct (spec_priority now s) as [a|].
    + destruct H as (_ & _ & _ & _ & Htx & _). rewrite Htx, sub32_diag.
      apply andb_false_r.
    + rewrite H. unfold st_of. cbn [fst snd]. rewrite Haw. reflexivity.
Qed.

(** X18. Link supervision runs on every tick: on a tick that interprets no reply
    (nothing in flight, or still inside the reply window) the panel stays
    online exactly if it was online and at most 300 ms have passed since the
    last addressed reply. *)
Theorem loop_offline_timeout (s : St) (e : Env) :
  awaiting_reply_ s = false
  \/ sub32 (next_millis e) (last_tx_time_ s) < REPLY_WAIT_MS ->
  panel_online_ (st_of (loop s e))
  = panel_online_ s
    && negb (PANEL_OFFLINE_TIMEOUT_MS
             <? sub32 (next_millis e) (last_panel_rx_ms_ s)).
Proof.
  intros Hq. rewrite loop_unfold. cbv zeta.
  set (now := next_millis e) in *.
  set (s0 := offline_check now s).
  assert (Hon0 : panel_online_ s0
                 = panel_online_ s
                   && negb (PANEL_OFFLINE_TIMEOUT_MS
                            <? sub32 now (last_panel_rx_ms_ s))).
  { subst s0. unfold offline_check. destruct s. cbn -[Z.ltb sub32].
    destruct panel_online_0; cbn -[Z.ltb sub32]; [|reflexivity].
    destruct (PANEL_OFFLINE_TIMEOUT_MS <? sub32 now last_panel_rx_ms_0);
      reflexivity. }
  assert (Hq0 : awaiting_reply_ s0 = false
                \/ sub32 now (last_tx_time_ s0) < REPLY_WAIT_MS).
  { destruct (offline_check_frame now s) as (Ha & Ht & _).
    fold s0 in Ha, Ht. rewrite Ha, Ht. exact Hq. }
  pose proof (loop_schedule_then_waiting now s0 (after_reads 1 e) Hq0) as Hw.
  pose proof (loop_schedule_keeps_online now _ s0 (after_reads 1 e) eq_refl)
    as Hk.
  cbv zeta in Hw.
  destruct (loop_schedule_ now s0 (after_reads 1 e)) as [[returned s1] e1].
  unfold st_of in Hw, Hk. cbn [fst snd] in Hw, Hk.
  rewrite <- Hon0, <- Hk.
  destruct returned; [reflexivity|].
  rewrite loop_finish_waiting by exact Hw.
  unfold st_of. cbn [fst snd].
  rewrite (proj2 (proj2 (proj2 (proj2
             (backlight_expire_frame now
                (set_rx_buf_ (rx_buf_ s1 ++ uart_rx e1) s1)))))).
  destruct s1. reflexivity.
Qed.

Lemma loop_offline_timeout_witness :
  let s := set_last_panel_rx_ms_ 1000
             (set_panel_online_ true
                (set_last_tx_time_ 1390
                   (set_awaiting_reply_ true St_init))) in
  panel_online_ (st_of (loop s (env_at 1400 []))) = false.
Proof.
  apply (loop_offline_timeout
           (set_last_panel_rx_ms_ 1000
              (set_panel_online_ true
                 (set_last_tx_time_ 1390
                    (set_awaiting_reply_ true St_init))))
           (env_at 1400 [])).
  right. reflexivity.
Defined.

(** X19. Backlight timeout.  On a tick inside the reply window, with the backlight
    on and its deadline reached, the typed input is discarded, the screen is
    marked dirty if there was any, and a command to switch the backlight off
    is left pending; the backlight still counts as on until that command is
    sent. *)
Theorem loop_backlight_timeout (s : St) (e : Env) :
  awaiting_reply_ s = true ->
  sub32 (next_millis e) (last_tx_time_ s) < REPLY_WAIT_MS ->
  backlight_on_ s = true ->
  backlight_off_at_ s <= next_millis e ->
  let r := loop s e in
  input_buffer_ (st_of r) = EmptyString
  /\ screen_dirty_ (st_of r)
     = screen_dirty_ s || negb (str_empty (input_buffer_ s))
  /\ backlight_target_on_ (st_of r) = false
  /\ backlight_cmd_pending_ (st_of r) = true
  /\ backlight_on_ (st_of r) = true.
Proof.
  intros Haw Hwin Hon Hoff. cbv zeta. rewrite loop_unfold. cbv zeta.
  destruct (offline_check_frame (next_millis e) s) as (Ha & Ht & Hb & Hc).
  rewrite loop_schedule_awaiting by (now rewrite Ha).
  rewrite loop_finish_waiting.
  2:{ rewrite Ht. apply andb_false_iff. right. apply Z.leb_gt. exact Hwin. }
  unfold st_of. cbn [fst snd]. clear Ha Ht Hb Hc.
  apply Z.leb_le in Hoff.
  unfold backlight_expire, offline_check.
  destruct s.
  cbn -[Z.leb Z.ltb sub32] in Haw, Hon, Hoff |- *. subst.
  destruct (panel_online_0 && _); cbn -[Z.leb Z.ltb sub32];
    rewrite Hoff; cbn;
    destruct input_buffer_0, screen_dirty_0; repeat split.
Qed.

Lemma loop_backlight_timeout_witness :
  let s := set_input_buffer_ "12"
             (set_screen_dirty_ false
                (set_backlight_off_at_ 16000
                   (set_backlight_on_ true
                      (set_last_tx_time_ 15990
                         (set_awaiting_reply_ true St_init))))) in
  let r := loop s (env_at 16000 []) in
  input_buffer_ (st_of r) = EmptyString
  /\ screen_dirty_ (st_of r) = true
  /\ backlight_target_on_ (st_of r) = false
  /\ backlight_cmd_pending_ (st_of r) = true
  /\ backlight_on_ (st_of r) = true.
Proof.
  apply (loop_backlight_timeout
           (set_input_buffer_ "12"
              (set_screen_dirty_ false
                 (set_backlight_off_at_ 16000
                    (set_backlight_on_ true
                       (set_last_tx_time_ 15990
                          (set_awaiting_reply_ true St_init))))))
           (env_at 16000 [])).
  - reflexivity.
  - reflexivity.
  - reflexivity.
  - vm_compute. discriminate.
Defined.

(** X23. [setup] writes exactly one frame, the first-stage poll [dev 00 0E], and
    leaves the driver waiting for its reply: the three timers start at the
    same instant, the receive buffer is empty, the backlight is off with no
    command pending, and the display lines agree with the display text. *)
Theorem setup_sends_first_poll (s : St) (e : Env) :
  let r := setup s e in
  frames_written (trace (env_of r))
  = frames_written (trace e) ++ [frame_of [device_id_ s; 0x00; 0x0E]]
  /\ last_cmd_ (st_of r) = CMD_POLL_00
  /\ awaiting_reply_ (st_of r) = true
  /\ last_tx_time_ (st_of r) = second_millis e
  /\ last_init_poll_ (st_of r) = second_millis e
  /\ last_activity_poll_ (st_of r) = second_millis e
  /\ rx_buf_ (st_of r) = []
  /\ (backlight_on_ (st_of r) = false
      /\ backlight_cmd_pending_ (st_of r) = false
      /\ backlight_target_on_ (st_of r) = false)
  /\ sent_second_init_ (st_of r) = sent_second_init_ s
  /\ display_split_ok (st_of r).
Proof.
  cbv zeta. unfold setup, parse_display_text_, second_millis.
  destruct s, e. unfold_m.
  cbn -[frame_of wrap32 add32 display_split_ok split_pipe].
  destruct (split_pipe display_text_0) as [[l1 l2]|] eqn:Hsp;
    cbn -[frame_of wrap32 add32 display_split_ok];
    rewrite frames_written_app;
    repeat match goal with |- _ /\ _ => split end;
    try reflexivity.
  - apply split_pipe_some in Hsp. destruct Hsp as [Htext Hno].
    split; [exact Hno | left; exact Htext].
  - apply split_pipe_none in Hsp.
    split; [exact Hsp | right; repeat split; exact Hsp].
Qed.

(** ** From a key press to its acknowledgement *)

Lemma lor_0x10_bit (a b : Z) : Z.testbit (Z.lor (Z.lor a 0x10) b) 4 = true.
Proof.
  rewrite !Z.lor_spec. change (Z.testbit 0x10 4) with true.
  now rewrite orb_true_r.
Qed.

(** An idle tick with a dirty screen and an acknowledgement owed sends a
    screen frame that carries the acknowledgement flag 0x10 and consumes the
    owed acknowledgement. *)
Lemma loop_screen_tick_ack (s : St) (e : Env) :
  awaiting_reply_ s = false ->
  need_reinit_after_f2_ s = false ->
  sent_second_init_ s = true ->
  screen_dirty_ s = true ->
  needs_button_ack_ s = true ->
  let r := loop s e in
  let frame := val_of (build_screen_frame_ s e) in
  frames_written (trace (env_of r))
  = frames_written (trace e) ++ [frame_of frame]
  /\ Z.testbit (modifier_of frame) 4 = true
  /\ last_cmd_ (st_of r) = CMD_SCREEN_07
  /\ awaiting_reply_ (st_of r) = true
  /\ needs_button_ack_ (st_of r) = false
  /\ key_ack_pending_ (st_of r) = key_ack_pending_ s
  /\ ack_pending_code_ (st_of r) = ack_pending_code_ s.
Proof.
  intros Haw Hre Hsent Hdirty Hneeds. cbv zeta.
  rewrite loop_unfold. cbv zeta.
  destruct s, e.
  cbn [awaiting_reply_ need_reinit_after_f2_ sent_second_init_ screen_dirty_
       needs_button_ack_] in *.
  subst.
  unfold loop_schedule_, loop_pick_, loop_switch_, bump_backlight_,
    build_screen_frame_, offline_check, after_reads, next_millis,
    modifier_of.
  unfold_m. screen_cbn.
  destruct (panel_online_0 && _); screen_cbn;
    destruct (screen_seq_flag_0 =? 0); screen_cbn;
    destruct (ack_toggle_0 =? 0); screen_cbn;
    destruct (str_empty input_buffer_0); screen_cbn;
    destruct backlight_on_0; screen_cbn;
    (rewrite loop_finish_waiting
       by (cbn [awaiting_reply_ last_tx_time_]; rewrite sub32_diag;
           reflexivity));
    unfold backlight_expire;
    cbn -[frame_of wrap32 add32 Z.leb str_resize str_fill
          bytes_of_string Nat.min String.length Z.lor Z.testbit];
    repeat (split_if;
            cbn -[frame_of wrap32 add32 Z.leb str_resize str_fill
                  bytes_of_string Nat.min String.length Z.lor Z.testbit]);
    rewrite frames_written_app, lor_0x10_bit; repeat split.
Qed.

Lemma handle_keypress_keeps_sched (key_name : string) (tamper : bool)
  (a b c : bool) (l : LastCmd) :
  keeps (fun s => need_reinit_after_f2_ s = a /\ sent_second_init_ s = b
                  /\ awaiting_reply_ s = c /\ last_cmd_ s = l)
    (handle_keypress_ key_name tamper).
Proof.
  unfold handle_keypress_, bump_backlight_. cbv zeta.
  repeat keeps_frame_step.
Qed.

(** X24. The handshake.  When the reply to an activity poll is a well-formed key
    event (not the tamper-only sentinel), the tick that interprets it leaves
    an acknowledgement owed and pending for that code; and the next tick, if
    the second init is done, answers with a screen frame carrying the
    acknowledgement flag 0x10, after which the acknowledgement is no longer
    owed but still pending until the keypad confirms it. *)
Theorem key_is_acknowledged_by_next_screen
  (code : Z) (s : St) (e1 e2 : Env) :
  last_cmd_ s = CMD_ACTIVITY_19 ->
  awaiting_reply_ s = true ->
  sent_second_init_ s = true ->
  need_reinit_after_f2_ s = false ->
  code <> 0x7F ->
  rx_buf_ s ++ uart_rx e1 = key_event code ->
  REPLY_WAIT_MS <= sub32 (next_millis e1) (last_tx_time_ s) ->
  let r1 := loop s e1 in
  let r2 := loop (st_of r1) e2 in
  let frame := val_of (build_screen_frame_ (st_of r1) e2) in
  (awaiting_reply_ (st_of r1) = false
   /\ needs_button_ack_ (st_of r1) = true
   /\ key_ack_pending_ (st_of r1) = true
   /\ ack_pending_code_ (st_of r1) = code)
  /\ (frames_written (trace (env_of r2))
      = frames_written (trace e2) ++ [frame_of frame]
      /\ Z.testbit (modifier_of frame) 4 = true
      /\ last_cmd_ (st_of r2) = CMD_SCREEN_07
      /\ needs_button_ack_ (st_of r2) = false
      /\ key_ack_pending_ (st_of r2) = true
      /\ ack_pending_code_ (st_of r2) = code).
Proof.
  intros Hcmd Haw Hsent Hre Hne Hbuf Hwin. cbv zeta.
  assert (H1 : awaiting_reply_ (st_of (loop s e1)) = false
               /\ needs_button_ack_ (st_of (loop s e1)) = true
               /\ key_ack_pending_ (st_of (loop s e1)) = true
               /\ ack_pending_code_ (st_of (loop s e1)) = code
               /\ screen_dirty_ (st_of (loop s e1)) = true
               /\ sent_second_init_ (st_of (loop s e1)) = true
               /\ need_reinit_after_f2_ (st_of (loop s e1)) = false).
  { rewrite loop_unfold. cbv zeta.
    set (now := next_millis e1) in *.
    destruct (offline_check_frame now s) as (Ha & Ht & Hb & Hc).
    rewrite loop_schedule_awaiting by (now rewrite Ha).
    rewrite loop_finish_due by (rewrite ?Ha, ?Ht; assumption).
    cbv zeta. rewrite Hb. unfold after_reads. cbn [uart_rx clock reads trace].
    rewrite Hbuf.
    set (s0 := offline_check now s) in *.
    set (s1 := set_rx_buf_ (key_event code) s0).
    set (e' := Build_Env _ _ _ _).
    assert (Hs1 : last_cmd_ s1 = CMD_ACTIVITY_19
                  /\ sent_second_init_ s1 = true
                  /\ need_reinit_after_f2_ s1 = false).
    { subst s1 s0. unfold offline_check. destruct s. cbn in *. subst.
      split_if; repeat split. }
    destruct Hs1 as (Hc1 & Hsent1 & Hre1).
    pose proof (handle_reply_key_event code s1 e' Hc1 Hne) as Hk.
    cbv zeta in Hk. destruct Hk as [(Kn & Kd & Kp & Kc & _) _].
    assert (Hsched : sent_second_init_
                       (st_of (handle_reply_for_cmd_ (key_event code) s1 e'))
                     = true
                     /\ need_reinit_after_f2_
                          (st_of (handle_reply_for_cmd_ (key_event code) s1 e'))
                        = false).
    { rewrite handle_reply_f4. cbv zeta. rewrite Hc1.
      set (d := decode_key_and_tamper_ code).
      set (s2 := set_in_tamper_ (snd d) (link_refresh (next_millis e') s1)).
      assert (Hs2 : need_reinit_after_f2_ s2 = false
                    /\ sent_second_init_ s2 = true).
      { subst s2. unfold link_refresh. destruct s1. cbn in *. subst.
        split_if; split; reflexivity. }
      destruct Hs2 as (Hre2 & Hsent2).
      destruct (tamper_only_of d); [unfold st_of; cbn; auto|].
      destruct (key_suppressed code (second_millis e') s1).
      - unfold st_of, arm_ack. cbn [fst snd]. destruct s2. cbn in *. auto.
      - set (s3 := record_key _ _ _ s2).
        assert (Hs3 : need_reinit_after_f2_ s3 = false
                      /\ sent_second_init_ s3 = true
                      /\ awaiting_reply_ s3 = awaiting_reply_ s3
                      /\ last_cmd_ s3 = last_cmd_ s3).
        { subst s3. unfold record_key. destruct s2. cbn in *. auto. }
        pose proof (handle_keypress_keeps_sched (fst d) (snd d) _ _ _ _
                      s3 (after_reads 2 e') Hs3) as HK.
        destruct (handle_keypress_ (fst d) (snd d) s3 (after_reads 2 e'))
          as [[u s4] e4].
        unfold st_of, arm_ack in *. cbn [fst snd] in *.
        destruct HK as (K1 & K2 & _). destruct s4. cbn in *. auto. }
    destruct Hsched as (Ksent & Kre).
    unfold key_event in *.
    destruct (handle_reply_for_cmd_ _ s1 e') as [[u s2] e2'].
    unfold st_of in *. cbn [fst snd] in *.
    unfold backlight_expire. destruct s2. cbn -[Z.leb] in *. subst.
    repeat (split_if; cbn -[Z.leb]); repeat split. }
  destruct H1 as (A1 & A2 & A3 & A4 & A5 & A6 & A7).
  split; [repeat split; assumption|].
  pose proof (loop_screen_tick_ack (st_of (loop s e1)) e2 A1 A7 A6 A5 A2)
    as H2.
  cbv zeta in H2. rewrite A3, A4 in H2.
  destruct H2 as (F & B & C & _ & N & P & Q). repeat split; assumption.
Qed.

Lemma key_is_acknowledged_by_next_screen_witness :
  let s := set_last_tx_time_ 9000
             (set_awaiting_reply_ true
                (set_last_cmd_ CMD_ACTIVITY_19
                   (set_sent_second_init_ true St_init))) in
  let r1 := loop s (env_at 9100 (key_event 0x05)) in
  let r2 := loop (st_of r1) (env_at 9110 []) in
  let frame := val_of (build_screen_frame_ (st_of r1) (env_at 9110 [])) in
  (awaiting_reply_ (st_of r1) = false
   /\ needs_button_ack_ (st_of r1) = true
   /\ key_ack_pending_ (st_of r1) = true
   /\ ack_pending_code_ (st_of r1) = 0x05)
  /\ (frames_written (trace (env_of r2)) = [] ++ [frame_of frame]
      /\ Z.testbit (modifier_of frame) 4 = true
      /\ last_cmd_ (st_of r2) = CMD_SCREEN_07
      /\ needs_button_ack_ (st_of r2) = false
      /\ key_ack_pending_ (st_of r2) = true
      /\ ack_pending_code_ (st_of r2) = 0x05).
Proof.
  apply (key_is_acknowledged_by_next_screen 0x05
           (set_last_tx_time_ 9000
              (set_awaiting_reply_ true
                 (set_last_cmd_ CMD_ACTIVITY_19
                    (set_sent_second_init_ true St_init))))
           (env_at 9100 (key_event 0x05)) (env_at 9110 [])).
  - reflexivity.
  - reflexivity.
  - reflexivity.
  - reflexivity.
  - discriminate.
  - reflexivity.
  - vm_compute. discriminate.
Defined.
